(** * AivisSpeech adapter: voice registry, synthesis client and HTTP routes

    A shallow embedding of
      - [open_notebook/providers/aivis_speech.py] (class
        [AivisSpeechTTSProvider]) and
      - [api/routers/aivis_tts.py] (the FastAPI routes under [/v1/audio]),
    followed by the properties of these two modules.

    Conventions of the embedding.
      - A Python [str] is the list of its Unicode code points, so that [len]
        counts characters and [startswith] is list prefix.
      - A Python [float] is a binary64 number ([PrimFloat.float]); [!=] is
        the IEEE comparison.
      - Values decoded from JSON, and the dicts and lists the code builds,
        are [pyval]; a dict is an insertion-ordered association list.
      - Coroutines run to completion in program order.  An operation is a
        function from the log of the HTTP requests sent so far to a result
        (a value or a raised exception) and the extended log.  The engine is
        an arbitrary function from the log and the request to an outcome, so
        its answers may depend on everything it has been sent.
      - [raise_for_status] raises for every status outside 2xx, as httpx
        does; [response.json()] raises a [ValueError] subclass on a body
        that is not JSON.
      - [send] is a call that httpx can put on the wire.  httpx refuses to
        build a request whose parameters hold a lone surrogate or whose JSON
        body holds a non-finite number or a lone surrogate; [utf8_encodable]
        and [json_encodable] say when it does not, and the statements about
        what is sent assume them.
        The keyword [json=None] stands for no body ([json_kwarg]).
      - [Response(...)] encodes the header names and values as latin-1 and
        raises [UnicodeEncodeError], a [ValueError], when it cannot.
      - Calls to the logger have no effect on results and are left out. *)

From Stdlib Require Import List String Ascii Strings.Byte ZArith NArith Bool Lia.
From Stdlib Require Import Floats.PrimFloat.
Import ListNotations.

Local Open Scope Z_scope.

(** ** Python strings *)

Module PyStr.

Definition char := N.
Definition str := list char.

(** An ASCII literal of the source as a [str]. *)
Definition lit (s : string) : str :=
  map N_of_ascii (list_ascii_of_string s).

Definition len (s : str) : Z := Z.of_nat (List.length s).

Fixpoint eqb (a b : str) : bool :=
  match a, b with
  | [], [] => true
  | x :: a', y :: b' => N.eqb x y && eqb a' b'
  | _, _ => false
  end.

(** [s.startswith(p)] *)
Fixpoint startswith (s p : str) {struct p} : bool :=
  match p with
  | [] => true
  | c :: p' =>
      match s with
      | [] => false
      | d :: s' => N.eqb c d && startswith s' p'
      end
  end.

(** [ch.isspace()] for one code point (CPython's [_PyUnicode_IsWhitespace]). *)
Definition isspace (c : char) : bool :=
  ((9 <=? c) && (c <=? 13) || (28 <=? c) && (c <=? 32)
   || (c =? 133) || (c =? 160) || (c =? 5760)
   || (8192 <=? c) && (c <=? 8202)
   || (c =? 8232) || (c =? 8233) || (c =? 8239) || (c =? 8287)
   || (c =? 12288))%N.

Fixpoint lstrip (s : str) : str :=
  match s with
  | [] => []
  | c :: s' => if isspace c then lstrip s' else s
  end.

Definition rstrip (s : str) : str := rev (lstrip (rev s)).

(** [s.strip()] *)
Definition strip (s : str) : str := rstrip (lstrip s).

(** Truth value of a string: [not s] holds exactly for the empty string. *)
Definition truthy (s : str) : bool :=
  match s with [] => false | _ :: _ => true end.

(** A surrogate code point: [s.encode("utf-8")] fails on it. *)
Definition is_surrogate (c : char) : bool :=
  ((55296 <=? c) && (c <=? 57343))%N.

Definition utf8_encodable (s : str) : bool :=
  forallb (fun c => negb (is_surrogate c)) s.

(** [s.encode("latin-1")] succeeds when no code point is above 255. *)
Definition latin1_encodable (s : str) : bool :=
  forallb (fun c => (c <=? 255)%N) s.

(** The digit [d] of a base up to 16, in lower case. *)
Definition digit (d : N) : char :=
  (if d <? 10 then 48 + d else 87 + d)%N.

Fixpoint digits (fuel : nat) (base n : N) (acc : str) : str :=
  match fuel with
  | O => acc
  | S fuel' =>
      let acc' := digit (n mod base) :: acc in
      if (n / base =? 0)%N then acc'
      else digits fuel' base (n / base)%N acc'
  end.

(** [str(n)] for a natural number. *)
Definition decimal (n : N) : str :=
  digits (S (N.to_nat (N.size n))) 10%N n [].

(** [format(n, "0{width}x")] *)
Definition hex (width : nat) (n : N) : str :=
  let d := digits (S (N.to_nat (N.size n))) 16%N n [] in
  repeat 48%N (width - List.length d) ++ d.

(** The length of the run of code points above 255 that starts [s]. *)
Fixpoint unencodable_run (s : str) : N :=
  match s with
  | [] => 0%N
  | c :: s' => if (255 <? c)%N then (1 + unencodable_run s')%N else 0%N
  end.

(** The first run of code points that latin-1 cannot encode, from position
    [pos] on: its start, its end and its first code point. *)
Fixpoint latin1_error (s : str) (pos : N) : option (N * N * char) :=
  match s with
  | [] => None
  | c :: s' =>
      if (255 <? c)%N then Some (pos, (pos + 1 + unencodable_run s')%N, c)
      else latin1_error s' (pos + 1)%N
  end.

(** [str(e)] for the [UnicodeEncodeError] of the latin-1 codec. *)
Definition latin1_error_message (start stop : N) (c : char) : str :=
  if (stop =? start + 1)%N then
    lit "'latin-1' codec can't encode character '"
    ++ (if (c <=? 65535)%N then lit "\u" ++ hex 4 c else lit "\U" ++ hex 8 c)
    ++ lit "' in position " ++ decimal start
    ++ lit ": ordinal not in range(256)"
  else
    lit "'latin-1' codec can't encode characters in position "
    ++ decimal start ++ lit "-" ++ decimal (stop - 1)%N
    ++ lit ": ordinal not in range(256)".

(** [s.lower()] on the ASCII letters; the header names of the source are
    ASCII literals. *)
Definition lower (s : str) : str :=
  map (fun c => if ((65 <=? c) && (c <=? 90))%N then (c + 32)%N else c) s.

End PyStr.

Import PyStr.

(** ** Python values, exceptions and the effect monad *)

#[local] Set Warnings "-register-all".

(** The values the code handles dynamically: what [response.json()] decodes
    and the dicts the code builds.  A dict keeps its insertion order. *)
Inductive pyval : Type :=
| PNone
| PBool (b : bool)
| PInt (z : Z)
| PFloat (f : float)
| PStr (s : str)
| PList (l : list pyval)
| PDict (d : list (str * pyval)).

(** The exception classes that can reach the code.  [JSONDecodeError] and
    [UnicodeEncodeError] are subclasses of [ValueError]; [HTTPStatusError]
    and [TransportError] are subclasses of [httpx.HTTPError];
    [HTTPException] is FastAPI's, a direct subclass of [Exception] as all
    the others are. *)
Inductive exn : Type :=
| ValueError (msg : str)
| JSONDecodeError (msg : str)
| UnicodeEncodeError (msg : str)
| KeyError (key : str)
| TypeError
| AttributeError
| HTTPStatusError (status : Z)
| TransportError (msg : str)
| HTTPException (status_code : Z) (detail : str).

(** [isinstance(e, httpx.HTTPError)] *)
Definition isinstance_HTTPError (e : exn) : bool :=
  match e with
  | HTTPStatusError _ | TransportError _ => true
  | _ => false
  end.

Module httpx.

Inductive method : Type := GET | POST.

(** One call of [client.get] or [client.post] with its keyword arguments. *)
Record Request : Type := mkRequest {
  verb : method;
  url : str;
  params : list (str * pyval);
  json : option pyval;
  timeout : float
}.

(** The body of a response as [response.json()] sees it. *)
Inductive decoding : Type :=
| Decoded (v : pyval)
| Undecodable (msg : str).

Record Response : Type := mkResponse {
  status_code : Z;
  content : list byte;
  decoded : decoding
}.

(** What a call meets: a response, or a transport failure (connection
    refused, timeout). *)
Inductive outcome : Type :=
| Responds (r : Response)
| Fails (msg : str).

(** The engine, seen from the client: its answer to a request, given the
    requests it has received before. *)
Definition engine : Type := list Request -> Request -> outcome.

(** [response.is_success] *)
Definition is_success (r : Response) : bool :=
  (200 <=? status_code r) && (status_code r <=? 299).

(** The keyword argument [json=v] of a call: [json=None] is a request with
    no JSON body. *)
Definition json_kwarg (v : pyval) : option pyval :=
  match v with
  | PNone => None
  | _ => Some v
  end.

End httpx.

Inductive result (A : Type) : Type :=
| Ok (a : A)
| Raise (e : exn).
Arguments Ok {A} a.
Arguments Raise {A} e.

(** An operation: from the log of requests sent so far to its result and the
    log afterwards. *)
Definition M (A : Type) : Type :=
  list httpx.Request -> result A * list httpx.Request.

Definition ret {A : Type} (a : A) : M A := fun log => (Ok a, log).

Definition raise {A : Type} (e : exn) : M A := fun log => (Raise e, log).

Definition bind {A B : Type} (m : M A) (k : A -> M B) : M B :=
  fun log =>
    match m log with
    | (Ok a, log') => k a log'
    | (Raise e, log') => (Raise e, log')
    end.

(** [try: body  except ... as e: handler e]; the handler dispatches on the
    class of [e] itself, in the order of the [except] clauses. *)
Definition try_except {A : Type} (body : M A) (handler : exn -> M A) : M A :=
  fun log =>
    match body log with
    | (Ok a, log') => (Ok a, log')
    | (Raise e, log') => handler e log'
    end.

Declare Scope py_scope.
Delimit Scope py_scope with py.
Notation "x <- m ;; k" := (bind m (fun x => k))
  (at level 61, m at next level, right associativity) : py_scope.
Notation "m ;; k" := (bind m (fun _ => k))
  (at level 61, right associativity) : py_scope.
Local Open Scope py_scope.

(** [await client.get(...)] and [await client.post(...)] for a request that
    httpx can build: the request is logged and the engine's outcome becomes
    a response or an exception. *)
Definition send (eng : httpx.engine) (req : httpx.Request) : M httpx.Response :=
  fun log =>
    match eng log req with
    | httpx.Responds r => (Ok r, log ++ [req])
    | httpx.Fails msg => (Raise (TransportError msg), log ++ [req])
    end.

(** [response.raise_for_status()] *)
Definition raise_for_status (r : httpx.Response) : M unit :=
  if httpx.is_success r then ret tt
  else raise (HTTPStatusError (httpx.status_code r)).

(** [response.json()] *)
Definition response_json (r : httpx.Response) : M pyval :=
  match httpx.decoded r with
  | httpx.Decoded v => ret v
  | httpx.Undecodable msg => raise (JSONDecodeError msg)
  end.

(** ** Operations on dynamic values *)

(** [d[k]] on an association list: the first binding of [k]. *)
Fixpoint dict_get {V : Type} (d : list (str * V)) (k : str) : option V :=
  match d with
  | [] => None
  | (k', v) :: d' => if PyStr.eqb k' k then Some v else dict_get d' k
  end.

(** [d[k] = v] on a dict: an existing key keeps its place, a new key goes
    last. *)
Fixpoint dict_set {V : Type} (d : list (str * V)) (k : str) (v : V)
  : list (str * V) :=
  match d with
  | [] => [(k, v)]
  | (k', v') :: d' =>
      if PyStr.eqb k' k then (k', v) :: d' else (k', v') :: dict_set d' k v
  end.

(** [x[k]] for a string key [k]: only a dict can be subscripted by it. *)
Definition py_getitem (x : pyval) (k : str) : M pyval :=
  match x with
  | PDict d =>
      match dict_get d k with
      | Some v => ret v
      | None => raise (KeyError k)
      end
  | _ => raise TypeError
  end.

(** [x[k] = v] for a string key [k]. *)
Definition py_setitem (x : pyval) (k : str) (v : pyval) : M pyval :=
  match x with
  | PDict d => ret (PDict (dict_set d k v))
  | _ => raise TypeError
  end.

(** [x.get(k, default)]: a method of dicts only. *)
Definition py_get (x : pyval) (k : str) (default : pyval) : M pyval :=
  match x with
  | PDict d =>
      match dict_get d k with
      | Some v => ret v
      | None => ret default
      end
  | _ => raise AttributeError
  end.

(** The items a [for] loop draws from [x]: the elements of a list, the keys
    of a dict, the characters of a string. *)
Definition py_iter (x : pyval) : M (list pyval) :=
  match x with
  | PList l => ret l
  | PDict d => ret (map (fun kv => PStr (fst kv)) d)
  | PStr s => ret (map (fun c => PStr [c]) s)
  | _ => raise TypeError
  end.

(** ** The provider: [open_notebook/providers/aivis_speech.py] *)

Module AivisSpeechTTSProvider.

(** [SPEAKERS]: a dict of dicts, in declaration order. *)
Definition SPEAKERS : list (str * list (str * Z)) :=
  [ (lit "mao",
      [ (lit "normal", 888753760);
        (lit "futsuu", 888753761);
        (lit "amama", 888753762);
        (lit "ochitsuki", 888753763);
        (lit "karakai", 888753764);
        (lit "setsunane", 888753765) ]);
    (lit "kohaku",
      [ (lit "normal", 1878365376);
        (lit "amama", 1878365377);
        (lit "setsunane", 1878365378);
        (lit "nemutai", 1878365379) ]) ].

(** The f-string [f"{speaker_name}_{style_name}"] on two strings. *)
Definition compound (speaker_name style_name : str) : str :=
  speaker_name ++ lit "_" ++ style_name.

(** The inner loop of [parse_voice_id]: the styles of one speaker. *)
Fixpoint parse_styles (voice_id speaker_name : str) (styles : list (str * Z))
  : option (str * str) :=
  match styles with
  | [] => None
  | (style_name, _) :: rest =>
      if startswith voice_id (compound speaker_name style_name)
      then Some (speaker_name, style_name)
      else parse_styles voice_id speaker_name rest
  end.

(** The outer loop of [parse_voice_id]. *)
Fixpoint parse_speakers (voice_id : str)
  (speakers : list (str * list (str * Z))) : option (str * str) :=
  match speakers with
  | [] => None
  | (speaker_name, styles) :: rest =>
      match parse_styles voice_id speaker_name styles with
      | Some parsed => Some parsed
      | None => parse_speakers voice_id rest
      end
  end.

Definition parse_voice_id (voice_id : str) : option (str * str) :=
  parse_speakers voice_id SPEAKERS.

(** [cls.SPEAKERS[speaker_name][style_name]] *)
Definition style_id_of (speaker_name style_name : str) : M Z :=
  match dict_get SPEAKERS speaker_name with
  | None => raise (KeyError speaker_name)
  | Some styles =>
      match dict_get styles style_name with
      | None => raise (KeyError style_name)
      | Some style_id => ret style_id
      end
  end.

(** The message of the [ValueError] of [synthesize]. *)
Definition invalid_voice_message (voice : str) : str :=
  lit "Invalid voice_id '" ++ voice ++ lit "'. "
  ++ lit "Expected format: 'speaker_style' (e.g., 'kohaku_normal')".

Section Provider.

(** The value of the environment variable [AIVIS_API_ENDPOINT] when the
    class is created, if it is set. *)
Variable AIVIS_API_ENDPOINT : option str.

(** The engine the requests reach. *)
Variable eng : httpx.engine.

(** The text an f-string field gives for a value that is not a string
    (Python's [format] of numbers, lists, dicts, ...). *)
Variable format_other : pyval -> str.

(** [os.getenv("AIVIS_API_ENDPOINT", "http://127.0.0.1:10101")] *)
Definition BASE_URL : str :=
  match AIVIS_API_ENDPOINT with
  | Some v => v
  | None => lit "http://127.0.0.1:10101"
  end.

(** An f-string field [{x}]. *)
Definition fmt (x : pyval) : str :=
  match x with
  | PStr s => s
  | _ => format_other x
  end.

(** [client.get(f"{cls.BASE_URL}/speakers", timeout=t)] *)
Definition speakers_request (t : float) : httpx.Request :=
  httpx.mkRequest httpx.GET (BASE_URL ++ lit "/speakers") [] None t.

(** The body of the inner loop of [get_available_voices], for one [style]
    of [speaker], and the rest of that loop. *)
Fixpoint styles_loop (speaker : pyval) (styles voices : list pyval)
  : M (list pyval) :=
  match styles with
  | [] => ret voices
  | style :: rest =>
      speaker_name <- py_getitem speaker (lit "name") ;;
      style_name <- py_getitem style (lit "name") ;;
      name <- py_getitem style (lit "name") ;;
      speaker_field <- py_getitem speaker (lit "name") ;;
      style_id <- py_getitem style (lit "id") ;;
      styles_loop speaker rest
        (voices ++
         [PDict [ (lit "id", PStr (fmt speaker_name ++ lit "_" ++ fmt style_name));
                  (lit "name", name);
                  (lit "speaker", speaker_field);
                  (lit "style_id", style_id) ]])
  end.

(** The outer loop of [get_available_voices]. *)
Fixpoint speakers_loop (speakers voices : list pyval) : M (list pyval) :=
  match speakers with
  | [] => ret voices
  | speaker :: rest =>
      styles_value <- py_get speaker (lit "styles") (PList []) ;;
      styles <- py_iter styles_value ;;
      voices' <- styles_loop speaker styles voices ;;
      speakers_loop rest voices'
  end.

(** The [try] block of [get_available_voices]. *)
Definition get_available_voices_body : M (list pyval) :=
  response <- send eng (speakers_request 10%float) ;;
  raise_for_status response ;;
  speakers_value <- response_json response ;;
  speakers <- py_iter speakers_value ;;
  speakers_loop speakers [].

Definition get_available_voices : M (list pyval) :=
  try_except get_available_voices_body (fun _ => ret []).

(** Step 1 of [synthesize]: the audio-query request. *)
Definition audio_query_request (style_id : Z) (text : str) : httpx.Request :=
  httpx.mkRequest httpx.POST (BASE_URL ++ lit "/audio_query")
    [ (lit "speaker", PInt style_id); (lit "text", PStr text) ]
    None 30%float.

(** Step 2 of [synthesize]: the synthesis request. *)
Definition synthesis_request (style_id : Z) (audio_query : pyval)
  : httpx.Request :=
  httpx.mkRequest httpx.POST (BASE_URL ++ lit "/synthesis")
    [ (lit "speaker", PInt style_id) ]
    (httpx.json_kwarg audio_query) 60%float.

(** The [try] block of [synthesize]. *)
Definition synthesize_body (text : str) (style_id : Z) (speed : float)
  : M (list byte) :=
  query_response <- send eng (audio_query_request style_id text) ;;
  raise_for_status query_response ;;
  audio_query <- response_json query_response ;;
  audio_query' <-
    (if negb (PrimFloat.eqb speed 1%float)
     then py_setitem audio_query (lit "speedScale") (PFloat speed)
     else ret audio_query) ;;
  synth_response <- send eng (synthesis_request style_id audio_query') ;;
  raise_for_status synth_response ;;
  ret (httpx.content synth_response).

Definition synthesize (text voice : str) (speed : float) : M (list byte) :=
  match parse_voice_id voice with
  | None => raise (ValueError (invalid_voice_message voice))
  | Some (speaker_name, style_name) =>
      style_id <- style_id_of speaker_name style_name ;;
      try_except (synthesize_body text style_id speed)
        (fun e =>
           if isinstance_HTTPError e then raise e   (* except httpx.HTTPError *)
           else raise e)                            (* except Exception *)
  end.

Definition health_check : M bool :=
  try_except
    (response <- send eng (speakers_request 5%float) ;;
     ret (httpx.status_code response =? 200))
    (fun _ => ret false).

(** [openai_compatible_speech] *)
Definition openai_compatible_speech (input voice : str) (speed : float)
  : M (list byte) :=
  synthesize input voice speed.

End Provider.

End AivisSpeechTTSProvider.

(** ** The routes: [api/routers/aivis_tts.py] *)

Module aivis_tts.

(** A request body that passed the model's validation. *)
Record SpeechRequest : Type := mkSpeechRequest {
  input : str;
  model : str;
  voice : str;
  speed : float
}.

(** [fastapi.Response] *)
Record Response : Type := mkResponse {
  content : list byte;
  media_type : str;
  headers : list (str * str)
}.

(** The double quote character. *)
Definition dquote : str := [34%N].

(** [s.encode("latin-1")], for its failure only. *)
Definition encode_latin1 (s : str) : M unit :=
  match latin1_error s 0%N with
  | Some (start, stop, c) =>
      raise (UnicodeEncodeError (latin1_error_message start stop c))
  | None => ret tt
  end.

(** [Response.init_headers]: every name, in lower case, and every value is
    encoded as latin-1, in the order of the dict. *)
Fixpoint init_headers (headers : list (str * str)) : M unit :=
  match headers with
  | [] => ret tt
  | (k, v) :: rest =>
      encode_latin1 (lower k) ;; encode_latin1 v ;; init_headers rest
  end.

(** [Response(content=..., media_type=..., headers=...)] *)
Definition Response_init (content : list byte) (media_type : str)
  (headers : list (str * str)) : M Response :=
  init_headers headers ;;
  ret (mkResponse content media_type headers).

Section Routes.

Variable AIVIS_API_ENDPOINT : option str.
Variable eng : httpx.engine.
Variable format_other : pyval -> str.

Definition create_speech (request : SpeechRequest) : M Response :=
  try_except
    ((if negb (truthy (input request)) || (len (strip (input request)) =? 0)
      then raise (HTTPException 400 (lit "Input text cannot be empty"))
      else ret tt) ;;
     (if len (input request) >? 5000
      then raise (HTTPException 400
                    (lit "Input text too long (max 5000 characters)"))
      else ret tt) ;;
     audio_data <-
       AivisSpeechTTSProvider.synthesize AIVIS_API_ENDPOINT eng
         (input request) (voice request) (speed request) ;;
     Response_init audio_data (lit "audio/wav")
       [ (lit "Content-Disposition",
          lit "attachment; filename=" ++ dquote ++ lit "speech_"
          ++ voice request ++ lit ".wav" ++ dquote);
         (lit "X-Model-Used", lit "aivis-speech");
         (lit "X-Voice-Used", voice request) ])
    (fun e =>
       match e with
       | ValueError msg | JSONDecodeError msg
       | UnicodeEncodeError msg =>                        (* except ValueError *)
           raise (HTTPException 400 msg)
       | _ =>                                             (* except Exception *)
           raise (HTTPException 500 (lit "Failed to generate speech"))
       end).

Definition list_voices : M pyval :=
  try_except
    (voices <-
       AivisSpeechTTSProvider.get_available_voices
         AIVIS_API_ENDPOINT eng format_other ;;
     ret (PDict [ (lit "object", PStr (lit "list"));
                  (lit "data", PList voices) ]))
    (fun _ => raise (HTTPException 500 (lit "Failed to retrieve voices"))).

Definition health_check : M pyval :=
  is_healthy <- AivisSpeechTTSProvider.health_check AIVIS_API_ENDPOINT eng ;;
  ret (PDict [ (lit "status",
                PStr (if is_healthy then lit "healthy" else lit "unhealthy"));
               (lit "provider", PStr (lit "aivis-speech"));
               (lit "endpoint", PStr (lit "http://127.0.0.1:10101")) ]).

End Routes.

End aivis_tts.

(** * Definitions used by the statements *)

Import AivisSpeechTTSProvider.

(** ** The resolver and the registry *)

(** The declared [(speaker, style)] pairs, in declaration order. *)
Definition declared_pairs : list (str * str) :=
  flat_map (fun entry => map (fun style => (fst entry, fst style)) (snd entry))
    SPEAKERS.

(** The resolver as the specification words it: the first declared pair
    whose compound is a prefix of the identifier. *)
Definition resolve_spec (voice_id : str) : option (str * str) :=
  find (fun pair => startswith voice_id (compound (fst pair) (snd pair)))
    declared_pairs.

(** The engine style id the registry declares for a pair, if any. *)
Definition registry_id (speaker_name style_name : str) : option Z :=
  match dict_get SPEAKERS speaker_name with
  | Some styles => dict_get styles style_name
  | None => None
  end.

(** ** The synthesis client *)

(** The value [audio_query] holds when the second request is built, if the
    update of [speedScale] does not raise. *)
Definition adjusted (speed : float) (audio_query : pyval) : option pyval :=
  if negb (PrimFloat.eqb speed 1%float)
  then match audio_query with
       | PDict d => Some (PDict (dict_set d (lit "speedScale") (PFloat speed)))
       | _ => None
       end
  else Some audio_query.

(** ** The catalog of voices *)

(** [traverse f l]: the images of all the elements of [l], when [f] is
    defined on each. *)
Fixpoint traverse {A B : Type} (f : A -> option B) (l : list A)
  : option (list B) :=
  match l with
  | [] => Some []
  | a :: l' =>
      match f a, traverse f l' with
      | Some b, Some bs => Some (b :: bs)
      | _, _ => None
      end
  end.

(** A style of the engine's catalog: an object with a [name] and an [id]. *)
Definition style_fields (style : pyval) : option (pyval * pyval) :=
  match style with
  | PDict d =>
      match dict_get d (lit "name"), dict_get d (lit "id") with
      | Some name, Some id => Some (name, id)
      | _, _ => None
      end
  | _ => None
  end.

(** A speaker of the engine's catalog: an object with a [name] and, when it
    has the key [styles], a list of styles under it. *)
Definition speaker_fields (speaker : pyval)
  : option (pyval * list (pyval * pyval)) :=
  match speaker with
  | PDict d =>
      match dict_get d (lit "name") with
      | None => None
      | Some name =>
          match dict_get d (lit "styles") with
          | None => Some (name, [])
          | Some (PList styles) =>
              option_map (pair name) (traverse style_fields styles)
          | Some _ => None
          end
      end
  | _ => None
  end.

(** The engine's catalog read as speakers with their styles, when the
    decoded body has that shape. *)
Definition catalog_of (body : pyval)
  : option (list (pyval * list (pyval * pyval))) :=
  match body with
  | PList speakers => traverse speaker_fields speakers
  | _ => None
  end.

(** The catalog of the specification's example. *)
Definition kohaku_catalog : pyval :=
  PList [ PDict [ (lit "name", PStr (lit "kohaku"));
                  (lit "styles",
                   PList [ PDict [ (lit "name", PStr (lit "normal"));
                                   (lit "id", PInt 1878365376) ] ]) ] ].

Section Records.

Variable format_other : pyval -> str.

(** The record of one voice, with the keys of the source. *)
Definition voice_record (speaker_name style_name style_id : pyval) : pyval :=
  PDict [ (lit "id", PStr (fmt format_other speaker_name ++ lit "_"
                        ++ fmt format_other style_name));
          (lit "name", style_name);
          (lit "speaker", speaker_name);
          (lit "style_id", style_id) ].

(** One record per speaker and style, speakers first, in catalog order. *)
Definition flatten_catalog (catalog : list (pyval * list (pyval * pyval)))
  : list pyval :=
  flat_map
    (fun speaker =>
       map (fun style => voice_record (fst speaker) (fst style) (snd style))
         (snd speaker))
    catalog.

End Records.

(** ** Concrete engines *)

(** A query document as the engine would return it. *)
Definition sample_query : pyval :=
  PDict [ (lit "accent_phrases", PList []);
          (lit "speedScale", PFloat 1%float);
          (lit "pitchScale", PFloat 0%float) ].

Definition wav : list byte := [x52; x49; x46; x46].

(** An engine that answers every request with status 200. *)
Definition engine_ok : httpx.engine :=
  fun _ _ => httpx.Responds (httpx.mkResponse 200 wav (httpx.Decoded sample_query)).

(** An engine that answers every request with status 500. *)
Definition engine_500 : httpx.engine :=
  fun _ _ =>
    httpx.Responds (httpx.mkResponse 500 [] (httpx.Undecodable (lit "error"))).

(** An engine whose catalog is the one of the specification's example. *)
Definition engine_kohaku : httpx.engine :=
  fun _ _ => httpx.Responds (httpx.mkResponse 200 [] (httpx.Decoded kohaku_catalog)).

(** An engine that cannot be reached. *)
Definition engine_down : httpx.engine :=
  fun _ _ => httpx.Fails (lit "connection refused").

(** An engine that answers with status 200 and a body that is not JSON. *)
Definition engine_not_json : httpx.engine :=
  fun _ _ =>
    httpx.Responds
      (httpx.mkResponse 200 [] (httpx.Undecodable (lit "Expecting value"))).

(** An engine whose documents are JSON arrays. *)
Definition engine_array : httpx.engine :=
  fun _ _ => httpx.Responds (httpx.mkResponse 200 [] (httpx.Decoded (PList []))).

(** An engine that answers its first request and fails on the others. *)
Definition engine_once : httpx.engine :=
  fun log _ =>
    match log with
    | [] => httpx.Responds (httpx.mkResponse 200 [] (httpx.Decoded sample_query))
    | _ :: _ => httpx.Responds (httpx.mkResponse 503 [] (httpx.Decoded PNone))
    end.

(** ** Outcomes of a request, for the statements *)

(** The outcome is a failure: no response, or a status outside 2xx. *)
Definition failed (o : httpx.outcome) : bool :=
  match o with
  | httpx.Fails _ => true
  | httpx.Responds r => negb (httpx.is_success r)
  end.

(** The exception that [send] followed by [raise_for_status] raises on a
    failed outcome. *)
Definition failure (o : httpx.outcome) : exn :=
  match o with
  | httpx.Fails msg => TransportError msg
  | httpx.Responds r => HTTPStatusError (httpx.status_code r)
  end.

(** The headers [create_speech] gives its response for a voice. *)
Definition speech_headers (voice : str) : list (str * str) :=
  [ (lit "Content-Disposition",
     lit "attachment; filename=" ++ aivis_tts.dquote ++ lit "speech_"
     ++ voice ++ lit ".wav" ++ aivis_tts.dquote);
    (lit "X-Model-Used", lit "aivis-speech");
    (lit "X-Voice-Used", voice) ].

(** The response [create_speech] returns for the audio of a voice. *)
Definition speech_response (voice : str) (audio_data : list byte)
  : aivis_tts.Response :=
  aivis_tts.mkResponse audio_data (lit "audio/wav") (speech_headers voice).

(** The message of the error that [Response.init_headers] raises, if any:
    the first name or value that latin-1 cannot encode. *)
Fixpoint header_error (headers : list (str * str)) : option str :=
  match headers with
  | [] => None
  | (k, v) :: rest =>
      match latin1_error (lower k) 0%N with
      | Some (start, stop, c) => Some (latin1_error_message start stop c)
      | None =>
          match latin1_error v 0%N with
          | Some (start, stop, c) => Some (latin1_error_message start stop c)
          | None => header_error rest
          end
      end
  end.

(** httpx can encode [v] as a JSON body
    ([json.dumps(v, allow_nan=False, ensure_ascii=False).encode("utf-8")]):
    no number of [v] is NaN or infinite and no string of [v], key or value,
    holds a lone surrogate. *)
Fixpoint json_encodable (v : pyval) : bool :=
  match v with
  | PFloat f => PrimFloat.is_finite f
  | PStr s => utf8_encodable s
  | PList l =>
      (fix all (l : list pyval) : bool :=
         match l with
         | [] => true
         | x :: l' => json_encodable x && all l'
         end) l
  | PDict d =>
      (fix all (d : list (str * pyval)) : bool :=
         match d with
         | [] => true
         | (k, x) :: d' => utf8_encodable k && json_encodable x && all d'
         end) d
  | _ => true
  end.

(** An engine that answers with the JSON value [null]. *)
Definition engine_null : httpx.engine :=
  fun _ _ => httpx.Responds (httpx.mkResponse 200 wav (httpx.Decoded PNone)).

(** [isinstance(x, dict)] *)
Definition is_dict (x : pyval) : bool :=
  match x with
  | PDict _ => true
  | _ => false
  end.

(** [isinstance(x, list)] *)
Definition is_list (x : pyval) : bool :=
  match x with
  | PList _ => true
  | _ => false
  end.

(** A speaker entry on which the loops of [get_available_voices] raise: it
    is not an object, or its [styles] list holds an entry that is not an
    object with a [name] and an [id]. *)
Definition malformed_speaker (speaker : pyval) : Prop :=
  is_dict speaker = false
  \/ exists d styles style,
       speaker = PDict d
       /\ dict_get d (lit "styles") = Some (PList styles)
       /\ In style styles
       /\ style_fields style = None.

(** A catalog whose speaker and style names are strings that the registry
    declares. *)
Definition declared_catalog (catalog : list (pyval * list (pyval * pyval)))
  : Prop :=
  Forall
    (fun speaker =>
       exists speaker_name,
         fst speaker = PStr speaker_name
         /\ Forall
              (fun style =>
                 exists style_name,
                   fst style = PStr style_name
                   /\ In (speaker_name, style_name) declared_pairs)
              (snd speaker))
    catalog.

(** A voice record whose [id] resolves to its own [speaker] and [name]. *)
Definition resolvable_voice (voice : pyval) : Prop :=
  exists fields voice_id speaker_name style_name,
    voice = PDict fields
    /\ dict_get fields (lit "id") = Some (PStr voice_id)
    /\ dict_get fields (lit "speaker") = Some (PStr speaker_name)
    /\ dict_get fields (lit "name") = Some (PStr style_name)
    /\ parse_voice_id voice_id = Some (speaker_name, style_name).

(** A catalog with a style that has no [id]. *)
Definition broken_catalog : pyval :=
  PList [ PDict [ (lit "name", PStr (lit "kohaku"));
                  (lit "styles",
                   PList [ PDict [ (lit "name", PStr (lit "normal"));
                                   (lit "id", PInt 1878365376) ];
                           PDict [ (lit "name", PStr (lit "amama")) ] ]) ] ].

Definition engine_broken : httpx.engine :=
  fun _ _ => httpx.Responds (httpx.mkResponse 200 [] (httpx.Decoded broken_catalog)).

(** An engine that answers with an error object instead of a catalog. *)
Definition engine_object : httpx.engine :=
  fun _ _ =>
    httpx.Responds
      (httpx.mkResponse 200 []
         (httpx.Decoded (PDict [ (lit "detail", PStr (lit "busy")) ]))).

(** ** Proof automation *)

(** Case analysis on the outcome of the request the goal is waiting for. *)
Ltac second_call :=
  match goal with
  | |- context [match ?e ?l ?q with
                | httpx.Responds _ => _
                | httpx.Fails _ => _
                end] =>
      let r2 := fresh "r2" in
      let msg := fresh "msg" in
      destruct (e l q) as [r2|msg];
      [destruct (httpx.is_success r2); reflexivity | reflexivity]
  end.

(** * Properties *)

(** ** Strings *)

Section StringFacts.

Lemma eqb_eq (a b : str) : PyStr.eqb a b = true <-> a = b.
Proof.
  revert b; induction a as [|x a IH]; intros [|y b]; simpl;
    try (split; [discriminate | congruence]); try tauto.
  rewrite andb_true_iff, N.eqb_eq, IH.
  split; [intros [-> ->]; reflexivity | intros E; injection E; auto].
Qed.

Lemma eqb_refl (a : str) : PyStr.eqb a a = true.
Proof. apply eqb_eq; reflexivity. Qed.

Lemma eqb_neq (a b : str) : PyStr.eqb a b = false <-> a <> b.
Proof.
  rewrite <- eqb_eq. destruct (PyStr.eqb a b); split; congruence.
Qed.

(** [startswith] is "has the prefix": the rest of the string is free. *)
Lemma startswith_spec (s p : str) :
  startswith s p = true <-> exists suffix, s = p ++ suffix.
Proof.
  revert s; induction p as [|c p IH]; intros s; simpl.
  - split; [intros _; exists s; reflexivity | reflexivity].
  - destruct s as [|d s].
    + split; [discriminate | intros [t E]; discriminate].
    + rewrite andb_true_iff, N.eqb_eq, IH. split.
      * intros [-> [t ->]]. exists t; reflexivity.
      * intros [t E]. injection E as -> ->. split; [reflexivity | exists t; reflexivity].
Qed.

Lemma lstrip_nil_iff (s : str) : lstrip s = [] <-> forallb isspace s = true.
Proof.
  induction s as [|c s IH]; simpl; [tauto|].
  destruct (isspace c); simpl; [exact IH | split; discriminate].
Qed.

Lemma lstrip_head (s : str) (c : char) (r : str) :
  lstrip s = c :: r -> isspace c = false.
Proof.
  induction s as [|d s IH]; simpl; [discriminate|].
  destruct (isspace d) eqn:E; [exact IH | congruence].
Qed.

Lemma forallb_rev {A : Type} (f : A -> bool) (l : list A) :
  forallb f (rev l) = forallb f l.
Proof.
  induction l as [|a l IH]; simpl; [reflexivity|].
  rewrite forallb_app, IH; simpl. rewrite andb_true_r. apply andb_comm.
Qed.

(** [s.strip()] is empty exactly when [s] holds nothing but whitespace. *)
Lemma strip_nil_iff (s : str) : strip s = [] <-> forallb isspace s = true.
Proof.
  unfold strip, rstrip. split.
  - intros E. apply (f_equal (@rev char)) in E. rewrite rev_involutive in E.
    simpl in E. apply lstrip_nil_iff in E. rewrite forallb_rev in E.
    destruct (lstrip s) as [|c r] eqn:L; [apply lstrip_nil_iff; exact L|].
    apply lstrip_head in L. simpl in E. rewrite L in E. discriminate.
  - intros E. apply lstrip_nil_iff in E. rewrite E. reflexivity.
Qed.

(** The first test of [create_speech] as one boolean. *)
Lemma blank_test (s : str) :
  negb (truthy s) || (len (strip s) =? 0) = forallb isspace s.
Proof.
  destruct (forallb isspace s) eqn:E.
  - apply strip_nil_iff in E. rewrite E. apply orb_true_r.
  - destruct s as [|c s]; [discriminate|]. simpl negb. simpl orb.
    destruct (strip (c :: s)) as [|d r] eqn:S.
    + apply strip_nil_iff in S. congruence.
    + unfold len. simpl List.length. apply Z.eqb_neq. lia.
Qed.

End StringFacts.

(** ** The resolver *)

Section Resolver.

Lemma parse_styles_find (voice_id speaker_name : str) (styles : list (str * Z)) :
  parse_styles voice_id speaker_name styles =
  find (fun pair => startswith voice_id (compound (fst pair) (snd pair)))
    (map (fun style => (speaker_name, fst style)) styles).
Proof.
  induction styles as [|[style_name id] rest IH]; simpl; [reflexivity|].
  destruct (startswith voice_id (compound speaker_name style_name));
    [reflexivity | exact IH].
Qed.

Lemma find_app {A : Type} (f : A -> bool) (l1 l2 : list A) :
  find f (l1 ++ l2) =
  match find f l1 with Some x => Some x | None => find f l2 end.
Proof.
  induction l1 as [|a l1 IH]; simpl; [reflexivity|].
  destruct (f a); [reflexivity | exact IH].
Qed.

Lemma parse_speakers_find (voice_id : str) (speakers : list (str * list (str * Z))) :
  parse_speakers voice_id speakers =
  find (fun pair => startswith voice_id (compound (fst pair) (snd pair)))
    (flat_map (fun entry => map (fun style => (fst entry, fst style)) (snd entry))
       speakers).
Proof.
  induction speakers as [|[speaker_name styles] rest IH]; simpl; [reflexivity|].
  rewrite find_app, <- parse_styles_find, IH. reflexivity.
Qed.

Lemma parse_voice_id_resolve_spec (voice_id : str) :
  parse_voice_id voice_id = resolve_spec voice_id.
Proof. apply parse_speakers_find. Qed.

(** What [find] returns is the first element that passes the test. *)
Lemma find_first {A : Type} (f : A -> bool) (l : list A) :
  match find f l with
  | Some x =>
      exists before after,
        l = before ++ x :: after /\ f x = true /\
        forall y, In y before -> f y = false
  | None => forall y, In y l -> f y = false
  end.
Proof.
  induction l as [|a l IH]; simpl; [tauto|].
  destruct (f a) eqn:E.
  - exists [], l. simpl. tauto.
  - destruct (find f l) as [x|].
    + destruct IH as (before & after & -> & Hx & Hb).
      exists (a :: before), after. simpl. repeat split; auto.
      intros y [<-|Hy]; auto.
    + intros y [<-|Hy]; auto.
Qed.

(** A declared compound followed by anything resolves to its own pair: no
    declared compound is a prefix of another one. *)
Lemma parse_voice_id_declared_suffix (speaker_name style_name suffix : str) :
  In (speaker_name, style_name) declared_pairs ->
  parse_voice_id (compound speaker_name style_name ++ suffix)
  = Some (speaker_name, style_name).
Proof.
  intros H. cbv [declared_pairs SPEAKERS flat_map map fst snd app] in H.
  simpl in H.
  repeat (destruct H as [H|H]; [injection H as <- <-; reflexivity|]).
  destruct H.
Qed.

End Resolver.

Section Registry.


Lemma parse_voice_id_declared (voice_id speaker_name style_name : str) :
  parse_voice_id voice_id = Some (speaker_name, style_name) ->
  In (speaker_name, style_name) declared_pairs.
Proof.
  rewrite parse_voice_id_resolve_spec. unfold resolve_spec.
  intros H. apply find_some in H. apply H.
Qed.

(** Every declared pair has an id: the lookup of [synthesize] cannot raise
    [KeyError] after a successful parse. *)
Lemma declared_registry_id (speaker_name style_name : str) :
  In (speaker_name, style_name) declared_pairs ->
  exists style_id, registry_id speaker_name style_name = Some style_id.
Proof.
  intros H. cbv [declared_pairs SPEAKERS flat_map map fst snd app] in H.
  simpl in H.
  repeat (destruct H as [H|H];
          [injection H as <- <-; eexists; vm_compute; reflexivity|]).
  destruct H.
Qed.

Lemma style_id_of_registry (speaker_name style_name : str) (style_id : Z) :
  registry_id speaker_name style_name = Some style_id ->
  style_id_of speaker_name style_name = ret style_id.
Proof.
  unfold registry_id, style_id_of.
  destruct (dict_get SPEAKERS speaker_name) as [styles|]; [|discriminate].
  intros ->. reflexivity.
Qed.

End Registry.

(** ** The synthesis client *)

Section Synthesis.

Variable AIVIS_API_ENDPOINT : option str.
Variable eng : httpx.engine.

Local Abbreviation audio_query_request :=
  (audio_query_request AIVIS_API_ENDPOINT).
Local Abbreviation synthesis_request :=
  (synthesis_request AIVIS_API_ENDPOINT).
Local Abbreviation synthesize_body :=
  (synthesize_body AIVIS_API_ENDPOINT eng).
Local Abbreviation synthesize := (synthesize AIVIS_API_ENDPOINT eng).

(** Both handlers of [synthesize] raise the exception again. *)
Lemma try_except_reraise {A : Type} (m : M A) (log : list httpx.Request) :
  try_except m
    (fun e => if isinstance_HTTPError e then raise e else raise e) log
  = m log.
Proof.
  unfold try_except. destruct (m log) as [[a|e] log']; [reflexivity|].
  destruct (isinstance_HTTPError e); reflexivity.
Qed.

Lemma synthesize_resolved (text voice : str) (speed : float)
  (speaker_name style_name : str) (style_id : Z) (log : list httpx.Request) :
  parse_voice_id voice = Some (speaker_name, style_name) ->
  registry_id speaker_name style_name = Some style_id ->
  synthesize text voice speed log = synthesize_body text style_id speed log.
Proof.
  intros P R. unfold AivisSpeechTTSProvider.synthesize. rewrite P.
  rewrite (style_id_of_registry _ _ _ R). unfold bind, ret.
  apply try_except_reraise.
Qed.

(** [synthesize_body], one engine outcome at a time. *)
Lemma synthesize_body_run (text : str) (style_id : Z) (speed : float)
  (log : list httpx.Request) :
  synthesize_body text style_id speed log =
  let q1 := audio_query_request style_id text in
  match eng log q1 with
  | httpx.Fails msg => (Raise (TransportError msg), log ++ [q1])
  | httpx.Responds r1 =>
      if httpx.is_success r1 then
        match httpx.decoded r1 with
        | httpx.Undecodable msg => (Raise (JSONDecodeError msg), log ++ [q1])
        | httpx.Decoded doc =>
            match adjusted speed doc with
            | None => (Raise TypeError, log ++ [q1])
            | Some doc' =>
                let q2 := synthesis_request style_id doc' in
                match eng (log ++ [q1]) q2 with
                | httpx.Fails msg =>
                    (Raise (TransportError msg), log ++ [q1; q2])
                | httpx.Responds r2 =>
                    if httpx.is_success r2
                    then (Ok (httpx.content r2), log ++ [q1; q2])
                    else (Raise (HTTPStatusError (httpx.status_code r2)),
                          log ++ [q1; q2])
                end
            end
        end
      else (Raise (HTTPStatusError (httpx.status_code r1)), log ++ [q1])
  end.
Proof.
  unfold AivisSpeechTTSProvider.synthesize_body, bind, send, raise_for_status,
    response_json, adjusted, py_setitem, ret, raise.
  cbv zeta.
  destruct (eng log _) as [r1|msg]; [|reflexivity].
  destruct (httpx.is_success r1); [|reflexivity].
  destruct (httpx.decoded r1) as [doc|msg]; [|reflexivity].
  destruct (negb (PrimFloat.eqb speed 1)).
  - destruct doc; try reflexivity.
    rewrite <- app_assoc. second_call.
  - rewrite <- app_assoc. second_call.
Qed.

(** The requests of one run of the [try] block: the audio query alone, or
    the audio query and then the synthesis, both with the same style id. *)
Lemma synthesize_body_log (text : str) (style_id : Z) (speed : float)
  (log : list httpx.Request) :
  snd (synthesize_body text style_id speed log)
    = log ++ [audio_query_request style_id text]
  \/ exists doc,
       snd (synthesize_body text style_id speed log)
       = log ++ [audio_query_request style_id text;
                 synthesis_request style_id doc].
Proof.
  rewrite synthesize_body_run. cbv zeta.
  destruct (eng log _) as [r1|msg]; [|left; reflexivity].
  destruct (httpx.is_success r1); [|left; reflexivity].
  destruct (httpx.decoded r1) as [doc|msg]; [|left; reflexivity].
  destruct (adjusted speed doc) as [doc'|]; [|left; reflexivity].
  right. exists doc'. second_call.
Qed.

Lemma dict_set_same {V : Type} (d : list (str * V)) (k : str) (v : V) :
  dict_get (dict_set d k v) k = Some v.
Proof.
  induction d as [|[k' v'] d IH]; simpl.
  - rewrite eqb_refl. reflexivity.
  - destruct (PyStr.eqb k' k) eqn:E; simpl; rewrite E; [reflexivity | exact IH].
Qed.

Lemma dict_set_other {V : Type} (d : list (str * V)) (k k0 : str) (v : V) :
  k0 <> k -> dict_get (dict_set d k v) k0 = dict_get d k0.
Proof.
  intros N. induction d as [|[k' v'] d IH]; simpl.
  - apply eqb_neq in N. destruct (PyStr.eqb k k0) eqn:E; [|reflexivity].
    apply eqb_eq in E. apply eqb_neq in N. congruence.
  - destruct (PyStr.eqb k' k) eqn:E; simpl.
    + destruct (PyStr.eqb k' k0) eqn:E0; [|reflexivity].
      apply eqb_eq in E, E0. congruence.
    + rewrite IH. reflexivity.
Qed.

(** An identifier that does not resolve: the [ValueError], and no request. *)
Lemma synthesize_unresolved (text voice : str) (speed : float)
  (log : list httpx.Request) :
  parse_voice_id voice = None ->
  synthesize text voice speed log
  = (Raise (ValueError (invalid_voice_message voice)), log).
Proof.
  intros P. unfold AivisSpeechTTSProvider.synthesize. rewrite P. reflexivity.
Qed.

(** C4.  With a voice identifier that the resolver does not match,
    [synthesize] raises [ValueError], the message holds the identifier as it
    was given, and the log of requests is left as it was: nothing is sent to
    the engine. *)
Theorem synthesize_invalid_voice (text voice : str) (speed : float)
  (log : list httpx.Request) :
  parse_voice_id voice = None ->
  synthesize text voice speed log
    = (Raise (ValueError (invalid_voice_message voice)), log)
  /\ invalid_voice_message voice
     = lit "Invalid voice_id '" ++ voice
       ++ lit "'. Expected format: 'speaker_style' (e.g., 'kohaku_normal')".
Proof.
  intros P. split.
  - apply synthesize_unresolved. exact P.
  - unfold invalid_voice_message. do 2 f_equal.
Qed.

(** A document other than [None] is the JSON body of the synthesis
    request. *)
Lemma synthesis_request_body (style_id : Z) (doc : pyval) :
  doc <> PNone ->
  synthesis_request style_id doc
  = httpx.mkRequest httpx.POST (BASE_URL AIVIS_API_ENDPOINT ++ lit "/synthesis")
      [ (lit "speaker", PInt style_id) ] (Some doc) 60%float.
Proof.
  intros N. unfold AivisSpeechTTSProvider.synthesis_request.
  destruct doc; try reflexivity. congruence.
Qed.

(** C5.  For a text, a document and a speed that httpx can encode, when the
    audio-query call succeeds and decodes to [doc]: with [speed == 1.0] the
    JSON body of the synthesis request is [doc] itself; with [speed != 1.0]
    and [doc] a JSON object, the body is the object whose [speedScale] is
    [speed] and whose other fields read as in [doc].  The two requests are
    written out in full. *)
Theorem synthesize_speed_scale (text voice : str) (speed : float)
  (speaker_name style_name : str) (style_id : Z)
  (r : httpx.Response) (doc : pyval) (log : list httpx.Request) :
  parse_voice_id voice = Some (speaker_name, style_name) ->
  registry_id speaker_name style_name = Some style_id ->
  utf8_encodable text = true ->
  eng log (audio_query_request style_id text) = httpx.Responds r ->
  httpx.is_success r = true ->
  httpx.decoded r = httpx.Decoded doc ->
  json_encodable doc = true ->
  (PrimFloat.eqb speed 1%float = true ->
   doc <> PNone ->
   snd (synthesize text voice speed log)
   = log ++
     [ httpx.mkRequest httpx.POST
         (BASE_URL AIVIS_API_ENDPOINT ++ lit "/audio_query")
         [ (lit "speaker", PInt style_id); (lit "text", PStr text) ]
         None 30%float;
       httpx.mkRequest httpx.POST
         (BASE_URL AIVIS_API_ENDPOINT ++ lit "/synthesis")
         [ (lit "speaker", PInt style_id) ]
         (Some doc) 60%float ])
  /\ (PrimFloat.eqb speed 1%float = false ->
      PrimFloat.is_finite speed = true ->
      forall fields, doc = PDict fields ->
      exists fields',
        snd (synthesize text voice speed log)
        = log ++
          [ httpx.mkRequest httpx.POST
              (BASE_URL AIVIS_API_ENDPOINT ++ lit "/audio_query")
              [ (lit "speaker", PInt style_id); (lit "text", PStr text) ]
              None 30%float;
            httpx.mkRequest httpx.POST
              (BASE_URL AIVIS_API_ENDPOINT ++ lit "/synthesis")
              [ (lit "speaker", PInt style_id) ]
              (Some (PDict fields')) 60%float ]
        /\ dict_get fields' (lit "speedScale") = Some (PFloat speed)
        /\ forall k, k <> lit "speedScale" ->
             dict_get fields' k = dict_get fields k).
Proof.
  intros P R _ E S D _.
  rewrite (synthesize_resolved _ _ _ _ _ _ _ P R), synthesize_body_run.
  cbv zeta. rewrite E, S, D. unfold adjusted. split.
  - intros -> N. simpl negb. cbv iota.
    rewrite <- (synthesis_request_body style_id doc N).
    second_call.
  - intros -> _ fields ->. simpl negb. cbv iota.
    exists (dict_set fields (lit "speedScale") (PFloat speed)).
    split; [|split].
    + second_call.
    + apply dict_set_same.
    + intros k N. apply dict_set_other. exact N.
Qed.

(** C6.  When the audio-query call fails, by a transport failure or by a
    status outside 2xx, [synthesize] raises that failure (an
    [httpx.HTTPError]) and the audio query is the only request sent. *)
Theorem synthesize_first_call_fails (text voice : str) (speed : float)
  (speaker_name style_name : str) (style_id : Z)
  (log : list httpx.Request) :
  parse_voice_id voice = Some (speaker_name, style_name) ->
  registry_id speaker_name style_name = Some style_id ->
  match eng log (audio_query_request style_id text) with
  | httpx.Fails _ => True
  | httpx.Responds r => httpx.is_success r = false
  end ->
  exists e,
    synthesize text voice speed log
      = (Raise e, log ++ [audio_query_request style_id text])
    /\ isinstance_HTTPError e = true
    /\ e = match eng log (audio_query_request style_id text) with
           | httpx.Fails msg => TransportError msg
           | httpx.Responds r => HTTPStatusError (httpx.status_code r)
           end.
Proof.
  intros P R F.
  rewrite (synthesize_resolved _ _ _ _ _ _ _ P R), synthesize_body_run.
  cbv zeta.
  destruct (eng log _) as [r|msg].
  - rewrite F. eexists. repeat split.
  - eexists. repeat split.
Qed.

(** C7.  A run of [synthesize] sends no request, or the voice identifier
    resolved to a pair that the registry maps to an id and every request of
    the run carries that id as its [speaker] parameter. *)
Theorem synthesize_style_id_from_registry (text voice : str) (speed : float)
  (log : list httpx.Request) :
  exists calls,
    snd (synthesize text voice speed log) = log ++ calls
    /\ ((parse_voice_id voice = None /\ calls = [])
        \/ exists speaker_name style_name style_id,
             parse_voice_id voice = Some (speaker_name, style_name)
             /\ registry_id speaker_name style_name = Some style_id
             /\ Forall
                  (fun req =>
                     dict_get (httpx.params req) (lit "speaker")
                     = Some (PInt style_id))
                  calls).
Proof.
  destruct (parse_voice_id voice) as [[speaker_name style_name]|] eqn:P.
  - destruct (declared_registry_id _ _ (parse_voice_id_declared _ _ _ P))
      as [style_id R].
    rewrite (synthesize_resolved _ _ _ _ _ _ _ P R).
    destruct (synthesize_body_log text style_id speed log) as [->|[doc ->]];
      eexists; (split; [reflexivity|]); right;
      exists speaker_name, style_name, style_id;
      (split; [reflexivity|]); (split; [exact R|]);
      repeat constructor.
  - exists []. rewrite (synthesize_unresolved _ _ _ _ P), app_nil_r.
    split; [reflexivity|]. left. split; reflexivity.
Qed.

(** C2, amended.  For a text that httpx can encode,
    [synthesize(text, "kohaku_normal", 1.0)] sends the audio query with
    [speaker=1878365376], the id the registry declares for kohaku/normal,
    and, when that call returns a document (a JSON value other than [null]
    that httpx can encode), exactly one more request: the synthesis call
    with that document as its JSON body, as it came, and the same id.  The
    two requests are written out in full. *)
Theorem synthesize_kohaku_normal_calls (text : str)
  (r : httpx.Response) (doc : pyval) (log : list httpx.Request) :
  utf8_encodable text = true ->
  eng log (audio_query_request 1878365376 text) = httpx.Responds r ->
  httpx.is_success r = true ->
  httpx.decoded r = httpx.Decoded doc ->
  doc <> PNone ->
  json_encodable doc = true ->
  registry_id (lit "kohaku") (lit "normal") = Some 1878365376
  /\ snd (synthesize text (lit "kohaku_normal") 1%float log)
     = log ++
       [ httpx.mkRequest httpx.POST
           (BASE_URL AIVIS_API_ENDPOINT ++ lit "/audio_query")
           [ (lit "speaker", PInt 1878365376); (lit "text", PStr text) ]
           None 30%float;
         httpx.mkRequest httpx.POST
           (BASE_URL AIVIS_API_ENDPOINT ++ lit "/synthesis")
           [ (lit "speaker", PInt 1878365376) ]
           (Some doc) 60%float ].
Proof.
  intros _ E S D N _. split; [reflexivity|].
  rewrite (synthesize_resolved _ _ _ (lit "kohaku") (lit "normal") 1878365376);
    [|reflexivity|reflexivity].
  rewrite synthesize_body_run. cbv zeta. rewrite E, S, D.
  change (adjusted 1 doc) with (Some doc). cbv iota.
  rewrite <- (synthesis_request_body 1878365376 doc N).
  second_call.
Qed.

End Synthesis.

(** C3.  [parse_voice_id] is the resolver of the specification: it returns
    the first declared pair, in declaration order, whose compound is a prefix
    of the identifier, and nothing when no declared compound is a prefix.
    Whatever follows a declared compound is accepted, as in
    ["kohaku_normal_ja"]. *)
Theorem parse_voice_id_first_declared_prefix (voice_id : str) :
  parse_voice_id voice_id = resolve_spec voice_id
  /\ match parse_voice_id voice_id with
     | Some (speaker_name, style_name) =>
         exists before after,
           declared_pairs = before ++ (speaker_name, style_name) :: after
           /\ (exists suffix,
                 voice_id = compound speaker_name style_name ++ suffix)
           /\ forall pair, In pair before ->
                ~ exists suffix,
                    voice_id = compound (fst pair) (snd pair) ++ suffix
     | None =>
         forall pair, In pair declared_pairs ->
           ~ exists suffix,
               voice_id = compound (fst pair) (snd pair) ++ suffix
     end
  /\ (forall speaker_name style_name suffix,
        In (speaker_name, style_name) declared_pairs ->
        parse_voice_id (compound speaker_name style_name ++ suffix)
        = Some (speaker_name, style_name))
  /\ parse_voice_id (lit "kohaku_normal_ja")
     = Some (lit "kohaku", lit "normal").
Proof.
  split; [apply parse_voice_id_resolve_spec|].
  split; [|split; [intros; now apply parse_voice_id_declared_suffix
                  | reflexivity]].
  rewrite parse_voice_id_resolve_spec. unfold resolve_spec.
  pose proof (find_first
    (fun pair => startswith voice_id (compound (fst pair) (snd pair)))
    declared_pairs) as F.
  destruct (find _ declared_pairs) as [[speaker_name style_name]|].
  - destruct F as (before & after & E & Hx & Hb).
    exists before, after. split; [exact E|]. split.
    + apply startswith_spec. exact Hx.
    + intros pair Hp Hs. apply startswith_spec in Hs.
      rewrite (Hb pair Hp) in Hs. discriminate.
  - intros pair Hp Hs. apply startswith_spec in Hs.
    rewrite (F pair Hp) in Hs. discriminate.
Qed.


(** ** The catalog of voices *)

Section Catalog.

Variable AIVIS_API_ENDPOINT : option str.
Variable eng : httpx.engine.
Variable format_other : pyval -> str.

Local Abbreviation fmt := (fmt format_other).
Local Abbreviation styles_loop := (styles_loop format_other).
Local Abbreviation speakers_loop := (speakers_loop format_other).
Local Abbreviation get_available_voices_body :=
  (get_available_voices_body AIVIS_API_ENDPOINT eng format_other).
Local Abbreviation get_available_voices :=
  (get_available_voices AIVIS_API_ENDPOINT eng format_other).
Local Abbreviation speakers_request := (speakers_request AIVIS_API_ENDPOINT).
Local Abbreviation voice_record := (voice_record format_other).
Local Abbreviation flatten_catalog := (flatten_catalog format_other).

Lemma styles_loop_catalog (d : list (str * pyval)) (name : pyval)
  (styles : list pyval) :
  dict_get d (lit "name") = Some name ->
  forall (fields : list (pyval * pyval)) (voices : list pyval)
         (log : list httpx.Request),
  traverse style_fields styles = Some fields ->
  styles_loop (PDict d) styles voices log
  = (Ok (voices ++
         map (fun style => voice_record name (fst style) (snd style)) fields),
     log).
Proof.
  intros N. induction styles as [|style rest IH]; intros fields voices log T.
  - injection T as <-. simpl. rewrite app_nil_r. reflexivity.
  - simpl in T. destruct (style_fields style) as [[sname sid]|] eqn:SF;
      [|discriminate].
    destruct (traverse style_fields rest) as [fs|]; [|discriminate].
    injection T as <-.
    destruct style as [| | | | | |sd]; try discriminate. simpl in SF.
    destruct (dict_get sd (lit "name")) as [n'|] eqn:E1; [|discriminate].
    destruct (dict_get sd (lit "id")) as [i'|] eqn:E2; [|discriminate].
    injection SF as -> ->.
    cbn [AivisSpeechTTSProvider.styles_loop].
    unfold bind, py_getitem. rewrite N, E1, E2. unfold ret.
    rewrite (IH fs _ log eq_refl). rewrite <- app_assoc. reflexivity.
Qed.

Lemma speakers_loop_catalog (speakers : list pyval) :
  forall (catalog : list (pyval * list (pyval * pyval)))
         (voices : list pyval) (log : list httpx.Request),
  traverse speaker_fields speakers = Some catalog ->
  speakers_loop speakers voices log
  = (Ok (voices ++ flatten_catalog catalog), log).
Proof.
  induction speakers as [|speaker rest IH]; intros catalog voices log T.
  - injection T as <-. simpl. rewrite app_nil_r. reflexivity.
  - simpl in T. destruct (speaker_fields speaker) as [[name fields]|] eqn:SF;
      [|discriminate].
    destruct (traverse speaker_fields rest) as [c|]; [|discriminate].
    injection T as <-.
    destruct speaker as [| | | | | |d]; try discriminate. simpl in SF.
    destruct (dict_get d (lit "name")) as [n'|] eqn:N; [|discriminate].
    cbn [AivisSpeechTTSProvider.speakers_loop]. unfold bind at 1, py_get.
    destruct (dict_get d (lit "styles")) as [sv|] eqn:S.
    + destruct sv as [| | | | |styles|]; try discriminate.
      destruct (traverse style_fields styles) as [fs|] eqn:TS;
        [|discriminate].
      injection SF as <- <-. unfold ret at 1. unfold bind at 1, py_iter.
      unfold ret at 1. unfold bind.
      rewrite (styles_loop_catalog d n' styles N fs voices log TS).
      rewrite (IH c _ log eq_refl). simpl. rewrite <- app_assoc. reflexivity.
    + injection SF as <- <-. unfold ret at 1. unfold bind at 1, py_iter.
      unfold ret at 1. unfold bind. simpl.
      rewrite (IH c _ log eq_refl). reflexivity.
Qed.

(** [get_available_voices], one engine outcome at a time. *)
Lemma get_available_voices_body_run (log : list httpx.Request) :
  get_available_voices_body log =
  let q := speakers_request 10%float in
  match eng log q with
  | httpx.Fails msg => (Raise (TransportError msg), log ++ [q])
  | httpx.Responds r =>
      if httpx.is_success r then
        match httpx.decoded r with
        | httpx.Undecodable msg => (Raise (JSONDecodeError msg), log ++ [q])
        | httpx.Decoded body =>
            bind (py_iter body) (fun speakers => speakers_loop speakers [])
              (log ++ [q])
        end
      else (Raise (HTTPStatusError (httpx.status_code r)), log ++ [q])
  end.
Proof.
  unfold AivisSpeechTTSProvider.get_available_voices_body.
  unfold bind at 1, send. cbv zeta.
  destruct (eng log _) as [r|msg]; [|reflexivity].
  unfold bind at 1, raise_for_status.
  destruct (httpx.is_success r); [|reflexivity].
  unfold ret at 1. unfold bind at 1, response_json.
  destruct (httpx.decoded r); reflexivity.
Qed.

(** Nothing in the loops sends a request. *)
Lemma styles_loop_log (speaker : pyval) (styles : list pyval) :
  forall (voices : list pyval) (log : list httpx.Request),
  snd (styles_loop speaker styles voices log) = log.
Proof.
  induction styles as [|style rest IH]; intros voices log; [reflexivity|].
  cbn [AivisSpeechTTSProvider.styles_loop]. unfold bind, py_getitem.
  destruct speaker; try reflexivity.
  destruct (dict_get d (lit "name")); [|reflexivity]. unfold ret.
  destruct style; try reflexivity.
  destruct (dict_get d0 (lit "name")); [|reflexivity].
  destruct (dict_get d0 (lit "id")); [|reflexivity].
  apply IH.
Qed.

Lemma speakers_loop_log (speakers : list pyval) :
  forall (voices : list pyval) (log : list httpx.Request),
  snd (speakers_loop speakers voices log) = log.
Proof.
  induction speakers as [|speaker rest IH]; intros voices log; [reflexivity|].
  cbn [AivisSpeechTTSProvider.speakers_loop]. unfold bind.
  destruct (py_get speaker (lit "styles") (PList []) log)
    as [[sv|e] log1] eqn:G.
  - assert (log1 = log) as ->.
    { unfold py_get in G. destruct speaker; try discriminate.
      destruct (dict_get d (lit "styles")); injection G; auto. }
    destruct (py_iter sv log) as [[styles|e] log2] eqn:I.
    + assert (log2 = log) as ->.
      { unfold py_iter in I. destruct sv; try discriminate;
          injection I; auto. }
      pose proof (styles_loop_log speaker styles voices log) as L.
      destruct (styles_loop speaker styles voices log) as [[v|e] log3];
        simpl in L; subst log3; [apply IH | reflexivity].
    + unfold py_iter in I. destruct sv; try discriminate;
        injection I; auto.
  - unfold py_get in G. destruct speaker; try (injection G; auto; fail).
    destruct (dict_get d (lit "styles")); discriminate.
Qed.

Lemma get_available_voices_body_log (log : list httpx.Request) :
  snd (get_available_voices_body log) = log ++ [speakers_request 10%float].
Proof.
  rewrite get_available_voices_body_run. cbv zeta.
  destruct (eng log _) as [r|msg]; [|reflexivity].
  destruct (httpx.is_success r); [|reflexivity].
  destruct (httpx.decoded r) as [body|msg]; [|reflexivity].
  unfold bind, py_iter.
  destruct body; try reflexivity; unfold ret; apply speakers_loop_log.
Qed.

(** C9, amended.  [get_available_voices] sends one request for the catalog
    and always returns a list.  When the request fails, the status is not a
    success, the body does not decode, or anything else raises, the list is
    empty.  When the body is a catalog of speakers with styles, the list has
    one record per speaker and style, with the keys [id], [name], [speaker]
    and [style_id]; the catalog of one speaker kohaku with the style
    normal/1878365376 gives the one record
    [{id: "kohaku_normal", name: "normal", speaker: "kohaku",
      style_id: 1878365376}]. *)
Theorem get_available_voices_flattens (log : list httpx.Request) :
  exists voices,
    get_available_voices log = (Ok voices, log ++ [speakers_request 10%float])
    /\ (forall e log',
          get_available_voices_body log = (Raise e, log') -> voices = [])
    /\ match eng log (speakers_request 10%float) with
       | httpx.Fails _ => voices = []
       | httpx.Responds r =>
           if httpx.is_success r then
             match httpx.decoded r with
             | httpx.Undecodable _ => voices = []
             | httpx.Decoded body =>
                 (forall catalog,
                    catalog_of body = Some catalog ->
                    voices = flatten_catalog catalog)
                 /\ (body = kohaku_catalog ->
                     voices =
                     [PDict [ (lit "id", PStr (lit "kohaku_normal"));
                              (lit "name", PStr (lit "normal"));
                              (lit "speaker", PStr (lit "kohaku"));
                              (lit "style_id", PInt 1878365376) ]])
             end
           else voices = []
       end.
Proof.
  pose proof (get_available_voices_body_log log) as L.
  pose proof (get_available_voices_body_run log) as R. cbv zeta in R.
  unfold AivisSpeechTTSProvider.get_available_voices, try_except.
  destruct (get_available_voices_body log) as [[voices|e] log'] eqn:B;
    simpl in L; subst log'.
  - exists voices. split; [reflexivity|]. split; [discriminate|].
    destruct (eng log _) as [r|msg]; [|discriminate].
    destruct (httpx.is_success r); [|discriminate].
    destruct (httpx.decoded r) as [body|msg]; [|discriminate].
    assert (forall catalog, catalog_of body = Some catalog ->
                            voices = flatten_catalog catalog) as F.
    { intros catalog C. destruct body; try discriminate. simpl in C.
      unfold bind, py_iter, ret in R.
      rewrite (speakers_loop_catalog _ _ _ _ C) in R.
      injection R as ->. reflexivity. }
    split; [exact F|]. intros ->. apply (F _ eq_refl).
  - exists []. split; [reflexivity|]. split; [reflexivity|].
    destruct (eng log _) as [r|msg]; [|reflexivity].
    destruct (httpx.is_success r); [|reflexivity].
    destruct (httpx.decoded r) as [body|msg]; [|reflexivity].
    assert (forall catalog, catalog_of body = Some catalog ->
                            [] = flatten_catalog catalog) as F.
    { intros catalog C. destruct body; try discriminate. simpl in C.
      unfold bind, py_iter, ret in R.
      rewrite (speakers_loop_catalog _ _ _ _ C) in R. discriminate. }
    split; [exact F|]. intros ->. apply (F _ eq_refl).
Qed.

End Catalog.

(** ** The routes *)

Section RouteFacts.

Variable AIVIS_API_ENDPOINT : option str.
Variable eng : httpx.engine.

Local Abbreviation create_speech :=
  (aivis_tts.create_speech AIVIS_API_ENDPOINT eng).

(** C1.  For an input that is empty, all whitespace or longer than 5000
    characters, [create_speech] sends nothing to the engine; the
    [HTTPException] with status 400 that the validation raises is raised
    inside the [try] block, is caught there by [except Exception], and the
    exception that leaves the handler has status 500. *)
Theorem create_speech_rejected_input (request : aivis_tts.SpeechRequest)
  (log : list httpx.Request) :
  forallb isspace (aivis_tts.input request) = true
  \/ 5000 < len (aivis_tts.input request) ->
  create_speech request log
  = (Raise (HTTPException 500 (lit "Failed to generate speech")), log).
Proof.
  intros H. unfold aivis_tts.create_speech, try_except, bind at 1.
  rewrite blank_test.
  destruct (forallb isspace (aivis_tts.input request)) eqn:B;
    [reflexivity|].
  destruct H as [H|H]; [discriminate|].
  unfold ret at 1. unfold bind at 1.
  apply Z.gtb_lt in H. rewrite H. reflexivity.
Qed.

(** An input that is not blank and has at most 5000 characters passes the
    validation: the handler goes on to [synthesize]. *)
Lemma create_speech_accepted_input (request : aivis_tts.SpeechRequest)
  (log : list httpx.Request) :
  forallb isspace (aivis_tts.input request) = false ->
  len (aivis_tts.input request) <= 5000 ->
  parse_voice_id (aivis_tts.voice request) = None ->
  create_speech request log
  = (Raise (HTTPException 400
              (invalid_voice_message (aivis_tts.voice request))), log).
Proof.
  intros B L P. unfold aivis_tts.create_speech, try_except, bind at 1.
  rewrite blank_test, B. unfold ret at 1. unfold bind at 1.
  destruct (len (aivis_tts.input request) >? 5000) eqn:G;
    [apply Z.gtb_lt in G; lia|].
  unfold ret at 1. unfold bind.
  rewrite (synthesize_unresolved AIVIS_API_ENDPOINT eng
             (aivis_tts.input request) (aivis_tts.voice request)
             (aivis_tts.speed request) log P).
  reflexivity.
Qed.

(** The health route answers with the literal address, whatever
    [BASE_URL] is, after a probe sent to [BASE_URL]. *)
Lemma health_check_answer (log : list httpx.Request) :
  exists is_healthy,
    aivis_tts.health_check AIVIS_API_ENDPOINT eng log
    = (Ok (PDict [ (lit "status",
                    PStr (if is_healthy : bool
                          then lit "healthy" else lit "unhealthy"));
                   (lit "provider", PStr (lit "aivis-speech"));
                   (lit "endpoint", PStr (lit "http://127.0.0.1:10101")) ]),
       log ++ [speakers_request AIVIS_API_ENDPOINT 5%float]).
Proof.
  unfold aivis_tts.health_check, AivisSpeechTTSProvider.health_check,
    try_except, bind, send, ret.
  destruct (eng log _) as [r|msg].
  - exists (httpx.status_code r =? 200). reflexivity.
  - exists false. reflexivity.
Qed.

End RouteFacts.

(** ** Concrete runs *)

Section Runs.

(** C10.  With [AIVIS_API_ENDPOINT] set to [http://engine:10101], the probe
    of the health route goes to [http://engine:10101/speakers] and the
    answer gives [http://127.0.0.1:10101] as the endpoint, which is not
    [BASE_URL]. *)
Theorem health_check_endpoint_not_configured (eng : httpx.engine) :
  BASE_URL (Some (lit "http://engine:10101")) = lit "http://engine:10101"
  /\ (exists is_healthy,
        aivis_tts.health_check (Some (lit "http://engine:10101")) eng []
        = (Ok (PDict [ (lit "status",
                        PStr (if is_healthy : bool
                              then lit "healthy" else lit "unhealthy"));
                       (lit "provider", PStr (lit "aivis-speech"));
                       (lit "endpoint",
                        PStr (lit "http://127.0.0.1:10101")) ]),
           [httpx.mkRequest httpx.GET (lit "http://engine:10101/speakers")
              [] None 5%float]))
  /\ lit "http://127.0.0.1:10101"
     <> BASE_URL (Some (lit "http://engine:10101")).
Proof.
  split; [reflexivity|]. split.
  - apply (health_check_answer (Some (lit "http://engine:10101")) eng []).
  - intros H. vm_compute in H. discriminate H.
Qed.

Lemma synthesize_invalid_voice_witness :
  parse_voice_id (lit "unknown_voice") = None
  /\ synthesize None engine_ok (lit "hello") (lit "unknown_voice") 1%float []
     = (Raise (ValueError (invalid_voice_message (lit "unknown_voice"))), [])
  /\ invalid_voice_message (lit "unknown_voice")
     = lit "Invalid voice_id '" ++ lit "unknown_voice"
       ++ lit "'. Expected format: 'speaker_style' (e.g., 'kohaku_normal')".
Proof.
  split; [reflexivity|].
  apply (synthesize_invalid_voice None engine_ok). reflexivity.
Defined.

Lemma synthesize_speed_scale_witness :
  exists fields',
    snd (synthesize None engine_ok (lit "hello") (lit "mao_amama")
           1.5%float [])
    = [ httpx.mkRequest httpx.POST (lit "http://127.0.0.1:10101/audio_query")
          [ (lit "speaker", PInt 888753762); (lit "text", PStr (lit "hello")) ]
          None 30%float;
        httpx.mkRequest httpx.POST (lit "http://127.0.0.1:10101/synthesis")
          [ (lit "speaker", PInt 888753762) ]
          (Some (PDict fields')) 60%float ]
    /\ dict_get fields' (lit "speedScale") = Some (PFloat 1.5%float)
    /\ forall k, k <> lit "speedScale" ->
         dict_get fields' k
         = dict_get [ (lit "accent_phrases", PList []);
                      (lit "speedScale", PFloat 1%float);
                      (lit "pitchScale", PFloat 0%float) ] k.
Proof.
  refine (proj2 (synthesize_speed_scale None engine_ok (lit "hello")
                   (lit "mao_amama") 1.5%float (lit "mao") (lit "amama")
                   888753762
                   (httpx.mkResponse 200 wav (httpx.Decoded sample_query))
                   sample_query [] _ _ _ _ _ _ _) _ _ _ _);
    reflexivity.
Defined.

Lemma synthesize_first_call_fails_witness :
  exists e,
    synthesize None engine_500 (lit "hello") (lit "kohaku_normal") 1%float []
    = (Raise e, [audio_query_request None 1878365376 (lit "hello")])
    /\ isinstance_HTTPError e = true
    /\ e = HTTPStatusError 500.
Proof.
  apply (synthesize_first_call_fails None engine_500 (lit "hello")
           (lit "kohaku_normal") 1%float (lit "kohaku") (lit "normal")
           1878365376 []); reflexivity.
Defined.

Lemma synthesize_kohaku_normal_calls_witness :
  registry_id (lit "kohaku") (lit "normal") = Some 1878365376
  /\ snd (synthesize None engine_ok (lit "hello") (lit "kohaku_normal")
            1%float [])
     = [ httpx.mkRequest httpx.POST (lit "http://127.0.0.1:10101/audio_query")
           [ (lit "speaker", PInt 1878365376);
             (lit "text", PStr (lit "hello")) ]
           None 30%float;
         httpx.mkRequest httpx.POST (lit "http://127.0.0.1:10101/synthesis")
           [ (lit "speaker", PInt 1878365376) ]
           (Some sample_query) 60%float ].
Proof.
  apply (synthesize_kohaku_normal_calls None engine_ok (lit "hello")
           (httpx.mkResponse 200 wav (httpx.Decoded sample_query))
           sample_query []);
    first [reflexivity | discriminate].
Defined.

(** The audio query of [synthesize(text, "kohaku_normal", 1.0)] does not
    carry [speaker=1878365378]: that id is declared for kohaku/setsunane. *)
Lemma synthesize_kohaku_normal_not_1878365378 :
  registry_id (lit "kohaku") (lit "normal") <> Some 1878365378
  /\ registry_id (lit "kohaku") (lit "setsunane") = Some 1878365378
  /\ snd (synthesize None engine_ok (lit "hello") (lit "kohaku_normal")
            1%float [])
     <> [audio_query_request None 1878365378 (lit "hello");
         synthesis_request None 1878365378 sample_query]
  /\ hd_error
       (snd (synthesize None engine_ok (lit "hello") (lit "kohaku_normal")
               1%float []))
     = Some (audio_query_request None 1878365376 (lit "hello")).
Proof.
  split; [intros H; vm_compute in H; discriminate H|].
  split; [reflexivity|].
  split; [intros H; vm_compute in H; discriminate H | reflexivity].
Qed.


(** The record that [get_available_voices] builds has the key [style_id];
    it has no key [styleId]. *)
Lemma get_available_voices_key_not_styleId :
  fst (get_available_voices None engine_kohaku (fun _ => []) [])
  = Ok [PDict [ (lit "id", PStr (lit "kohaku_normal"));
                (lit "name", PStr (lit "normal"));
                (lit "speaker", PStr (lit "kohaku"));
                (lit "style_id", PInt 1878365376) ]]
  /\ fst (get_available_voices None engine_kohaku (fun _ => []) [])
     <> Ok [PDict [ (lit "id", PStr (lit "kohaku_normal"));
                    (lit "name", PStr (lit "normal"));
                    (lit "speaker", PStr (lit "kohaku"));
                    (lit "styleId", PInt 1878365376) ]].
Proof.
  split; [reflexivity|]. intros H. vm_compute in H. discriminate H.
Qed.

Lemma create_speech_rejected_input_witness :
  (forallb isspace [] = true \/ 5000 < len [])
  /\ aivis_tts.create_speech None engine_ok
       (aivis_tts.mkSpeechRequest [] (lit "aivis-speech")
          (lit "kohaku_normal") 1%float) []
     = (Raise (HTTPException 500 (lit "Failed to generate speech")), []).
Proof.
  assert (forallb isspace [] = true \/ 5000 < len []) as H.
  { left; reflexivity. }
  split; [exact H|].
  apply (create_speech_rejected_input None engine_ok
           (aivis_tts.mkSpeechRequest [] (lit "aivis-speech")
              (lit "kohaku_normal") 1%float) [] H).
Defined.

(** Blank and overlong inputs, and an input of exactly 5000 characters. *)
Example create_speech_inputs :
  let request input :=
    aivis_tts.mkSpeechRequest input (lit "aivis-speech")
      (lit "kohaku_normal") 1%float in
  let rejected :=
    (Raise (HTTPException 500 (lit "Failed to generate speech")), []) in
  aivis_tts.create_speech None engine_ok (request [32; 9; 12288]%N) []
    = rejected
  /\ aivis_tts.create_speech None engine_ok (request (repeat 97%N (Z.to_nat 5001))) []
     = rejected
  /\ fst (aivis_tts.create_speech None engine_ok (request (repeat 97%N (Z.to_nat 5000))) [])
     = Ok (aivis_tts.mkResponse wav (lit "audio/wav")
             [ (lit "Content-Disposition",
                lit "attachment; filename=" ++ aivis_tts.dquote
                ++ lit "speech_kohaku_normal.wav" ++ aivis_tts.dquote);
               (lit "X-Model-Used", lit "aivis-speech");
               (lit "X-Voice-Used", lit "kohaku_normal") ])
  /\ List.length
       (snd (aivis_tts.create_speech None engine_ok
               (request (repeat 97%N (Z.to_nat 5000))) [])) = 2%nat.
Proof. cbv zeta. repeat split; vm_compute; reflexivity. Qed.

End Runs.

(** * Further properties of the provider and the routes *)

(** ** The resolver and the registry *)

Section ResolverMore.

(** X1.  Whatever is appended to an identifier that resolves, the result stays
    the same. *)
Theorem parse_voice_id_extension (voice_id suffix : str)
  (speaker_name style_name : str) :
  parse_voice_id voice_id = Some (speaker_name, style_name) ->
  parse_voice_id (voice_id ++ suffix) = Some (speaker_name, style_name).
Proof.
  intros P.
  pose proof (parse_voice_id_declared _ _ _ P) as D.
  rewrite parse_voice_id_resolve_spec in P. unfold resolve_spec in P.
  apply find_some in P. destruct P as [_ S]. simpl in S.
  apply startswith_spec in S. destruct S as [t ->].
  rewrite <- app_assoc. apply parse_voice_id_declared_suffix. exact D.
Qed.

Lemma dict_get_SPEAKERS (speaker_name : str) (styles : list (str * Z)) :
  dict_get SPEAKERS speaker_name = Some styles ->
  In (speaker_name, styles) SPEAKERS.
Proof.
  unfold SPEAKERS. cbn [dict_get].
  destruct (PyStr.eqb (lit "mao") speaker_name) eqn:E1.
  - apply eqb_eq in E1. subst. intros H. injection H as <-. left; reflexivity.
  - destruct (PyStr.eqb (lit "kohaku") speaker_name) eqn:E2; [|discriminate].
    apply eqb_eq in E2. subst. intros H. injection H as <-.
    right; left; reflexivity.
Qed.

Lemma dict_get_In {V : Type} (d : list (str * V)) (k : str) (v : V) :
  dict_get d k = Some v -> In (k, v) d.
Proof.
  induction d as [|[k' v'] d IH]; simpl; [discriminate|].
  destruct (PyStr.eqb k' k) eqn:E.
  - apply eqb_eq in E. subst. intros H. injection H as ->. left; reflexivity.
  - intros H. right. apply IH. exact H.
Qed.

(** X2.  An engine style id stands for one pair only: two pairs that the registry
    maps to the same id are the same pair. *)
Theorem registry_id_injective (speaker1 style1 speaker2 style2 : str)
  (style_id : Z) :
  registry_id speaker1 style1 = Some style_id ->
  registry_id speaker2 style2 = Some style_id ->
  speaker1 = speaker2 /\ style1 = style2.
Proof.
  unfold registry_id. intros H1 H2.
  destruct (dict_get SPEAKERS speaker1) as [styles1|] eqn:S1; [|discriminate].
  destruct (dict_get SPEAKERS speaker2) as [styles2|] eqn:S2; [|discriminate].
  apply dict_get_SPEAKERS in S1, S2. apply dict_get_In in H1, H2.
  unfold SPEAKERS in S1, S2. simpl in S1, S2.
  destruct S1 as [S1|[S1|[]]]; injection S1 as <- <-;
  destruct S2 as [S2|[S2|[]]]; injection S2 as <- <-;
  simpl in H1, H2;
  repeat (destruct H1 as [H1|H1]; [injection H1 as <- <-|]); try destruct H1;
  repeat (destruct H2 as [H2|H2];
          [first [discriminate H2 | injection H2 as <-; split; reflexivity]|]);
  destruct H2.
Qed.

End ResolverMore.

(** ** The synthesis client *)

Section SynthesisMore.

Variable AIVIS_API_ENDPOINT : option str.
Variable eng : httpx.engine.

Local Abbreviation audio_query_request :=
  (audio_query_request AIVIS_API_ENDPOINT).
Local Abbreviation synthesis_request :=
  (synthesis_request AIVIS_API_ENDPOINT).
Local Abbreviation synthesize := (synthesize AIVIS_API_ENDPOINT eng).

(** A voice that resolves has an id in the registry. *)
Lemma parse_voice_id_registry_id (voice speaker_name style_name : str) :
  parse_voice_id voice = Some (speaker_name, style_name) ->
  exists style_id, registry_id speaker_name style_name = Some style_id.
Proof.
  intros P. apply declared_registry_id.
  apply (parse_voice_id_declared _ _ _ P).
Qed.

(** [synthesize] for a voice that resolves, one engine outcome at a time. *)
Lemma synthesize_run (text voice : str) (speed : float)
  (speaker_name style_name : str) (style_id : Z) (log : list httpx.Request) :
  parse_voice_id voice = Some (speaker_name, style_name) ->
  registry_id speaker_name style_name = Some style_id ->
  synthesize text voice speed log =
  let q1 := audio_query_request style_id text in
  if failed (eng log q1) then (Raise (failure (eng log q1)), log ++ [q1])
  else
    match eng log q1 with
    | httpx.Fails msg => (Raise (TransportError msg), log ++ [q1])
    | httpx.Responds r1 =>
        match httpx.decoded r1 with
        | httpx.Undecodable msg => (Raise (JSONDecodeError msg), log ++ [q1])
        | httpx.Decoded doc =>
            match adjusted speed doc with
            | None => (Raise TypeError, log ++ [q1])
            | Some doc' =>
                let q2 := synthesis_request style_id doc' in
                if failed (eng (log ++ [q1]) q2)
                then (Raise (failure (eng (log ++ [q1]) q2)), log ++ [q1; q2])
                else
                  match eng (log ++ [q1]) q2 with
                  | httpx.Fails msg =>
                      (Raise (TransportError msg), log ++ [q1; q2])
                  | httpx.Responds r2 =>
                      (Ok (httpx.content r2), log ++ [q1; q2])
                  end
            end
        end
    end.
Proof.
  intros P R.
  rewrite (synthesize_resolved _ _ _ _ _ _ _ _ _ P R), synthesize_body_run.
  cbv zeta. unfold failed, failure.
  destruct (eng log _) as [r1|msg]; [|reflexivity].
  destruct (httpx.is_success r1); [|reflexivity]. simpl negb. cbv iota.
  destruct (httpx.decoded r1) as [doc|msg]; [|reflexivity].
  destruct (adjusted speed doc) as [doc'|]; [|reflexivity].
  destruct (eng (log ++ _) _) as [r2|msg]; [|reflexivity].
  destruct (httpx.is_success r2); reflexivity.
Qed.

(** X3.  When both calls succeed, [synthesize] returns the body of the synthesis
    response as it is, after exactly the two requests. *)
Theorem synthesize_returns_content (text voice : str) (speed : float)
  (speaker_name style_name : str) (style_id : Z)
  (r1 r2 : httpx.Response) (doc doc' : pyval) (log : list httpx.Request) :
  parse_voice_id voice = Some (speaker_name, style_name) ->
  registry_id speaker_name style_name = Some style_id ->
  eng log (audio_query_request style_id text) = httpx.Responds r1 ->
  httpx.is_success r1 = true ->
  httpx.decoded r1 = httpx.Decoded doc ->
  adjusted speed doc = Some doc' ->
  eng (log ++ [audio_query_request style_id text])
    (synthesis_request style_id doc') = httpx.Responds r2 ->
  httpx.is_success r2 = true ->
  synthesize text voice speed log
  = (Ok (httpx.content r2),
     log ++ [audio_query_request style_id text;
             synthesis_request style_id doc']).
Proof.
  intros P R E1 S1 D A E2 S2.
  rewrite (synthesize_run _ _ _ _ _ _ _ P R). cbv zeta.
  rewrite E1. unfold failed. rewrite S1. simpl negb. cbv iota.
  rewrite D, A, E2, S2. reflexivity.
Qed.

(** X4.  When the synthesis call fails, by a transport failure or a status
    outside 2xx, [synthesize] raises that failure after the two requests:
    the audio query is not sent again and there is no third request. *)
Theorem synthesize_second_call_fails (text voice : str) (speed : float)
  (speaker_name style_name : str) (style_id : Z)
  (r1 : httpx.Response) (doc doc' : pyval) (log : list httpx.Request) :
  parse_voice_id voice = Some (speaker_name, style_name) ->
  registry_id speaker_name style_name = Some style_id ->
  eng log (audio_query_request style_id text) = httpx.Responds r1 ->
  httpx.is_success r1 = true ->
  httpx.decoded r1 = httpx.Decoded doc ->
  adjusted speed doc = Some doc' ->
  failed (eng (log ++ [audio_query_request style_id text])
            (synthesis_request style_id doc')) = true ->
  synthesize text voice speed log
  = (Raise (failure (eng (log ++ [audio_query_request style_id text])
                       (synthesis_request style_id doc'))),
     log ++ [audio_query_request style_id text;
             synthesis_request style_id doc'])
  /\ isinstance_HTTPError
       (failure (eng (log ++ [audio_query_request style_id text])
                   (synthesis_request style_id doc'))) = true.
Proof.
  intros P R E1 S1 D A F.
  rewrite (synthesize_run _ _ _ _ _ _ _ P R). cbv zeta.
  rewrite E1. unfold failed at 1. rewrite S1. simpl negb. cbv iota.
  rewrite D, A, F. split; [reflexivity|].
  destruct (eng (log ++ _) _); reflexivity.
Qed.

(** X5.  With [speed != 1.0], a query document that is not a JSON object cannot
    take the [speedScale] key: [synthesize] raises [TypeError] and the
    synthesis call is not made. *)
Theorem synthesize_document_not_object (text voice : str) (speed : float)
  (speaker_name style_name : str) (style_id : Z)
  (r1 : httpx.Response) (doc : pyval) (log : list httpx.Request) :
  parse_voice_id voice = Some (speaker_name, style_name) ->
  registry_id speaker_name style_name = Some style_id ->
  eng log (audio_query_request style_id text) = httpx.Responds r1 ->
  httpx.is_success r1 = true ->
  httpx.decoded r1 = httpx.Decoded doc ->
  PrimFloat.eqb speed 1%float = false ->
  is_dict doc = false ->
  synthesize text voice speed log
  = (Raise TypeError, log ++ [audio_query_request style_id text]).
Proof.
  intros P R E1 S1 D N I.
  rewrite (synthesize_run _ _ _ _ _ _ _ P R). cbv zeta.
  rewrite E1. unfold failed. rewrite S1. simpl negb. cbv iota.
  rewrite D. unfold adjusted. rewrite N. simpl negb. cbv iota.
  destruct doc; try reflexivity. discriminate I.
Qed.

(** X6.  A body of the audio-query response that is not JSON stops [synthesize]
    after the first request, with the decoder's error. *)
Theorem synthesize_undecodable_document (text voice : str) (speed : float)
  (speaker_name style_name : str) (style_id : Z)
  (r1 : httpx.Response) (msg : str) (log : list httpx.Request) :
  parse_voice_id voice = Some (speaker_name, style_name) ->
  registry_id speaker_name style_name = Some style_id ->
  eng log (audio_query_request style_id text) = httpx.Responds r1 ->
  httpx.is_success r1 = true ->
  httpx.decoded r1 = httpx.Undecodable msg ->
  synthesize text voice speed log
  = (Raise (JSONDecodeError msg), log ++ [audio_query_request style_id text]).
Proof.
  intros P R E1 S1 D.
  rewrite (synthesize_run _ _ _ _ _ _ _ P R). cbv zeta.
  rewrite E1. unfold failed. rewrite S1. simpl negb. cbv iota.
  rewrite D. reflexivity.
Qed.

(** X7.  The requests of a run, in order: none; or the audio query; or the audio
    query and then one synthesis request.  Nothing is sent twice. *)
Theorem synthesize_at_most_two_requests (text voice : str) (speed : float)
  (log : list httpx.Request) :
  exists calls,
    snd (synthesize text voice speed log) = log ++ calls
    /\ (List.length calls <= 2)%nat
    /\ (calls = []
        \/ exists style_id,
             calls = [audio_query_request style_id text]
             \/ exists doc,
                  calls = [audio_query_request style_id text;
                           synthesis_request style_id doc]).
Proof.
  destruct (parse_voice_id voice) as [[speaker_name style_name]|] eqn:P.
  - destruct (parse_voice_id_registry_id _ _ _ P) as [style_id R].
    rewrite (synthesize_resolved _ _ _ _ _ _ _ _ _ P R).
    destruct (synthesize_body_log AIVIS_API_ENDPOINT eng text style_id speed
                log) as [->|[doc ->]]; eexists;
      (split; [reflexivity|]); (split; [simpl; lia|]); right;
      exists style_id; [left | right; exists doc]; reflexivity.
  - exists []. rewrite (synthesize_unresolved _ _ _ _ _ _ P), app_nil_r.
    split; [reflexivity|]. split; [simpl; lia | left; reflexivity].
Qed.

(** X8.  The lookup [SPEAKERS[speaker_name][style_name]] that follows a
    successful parse always finds an id: what [parse_voice_id] returns is a
    pair of keys of the table, and [synthesize] never raises [KeyError]. *)
Theorem synthesize_never_KeyError (text voice : str) (speed : float)
  (log : list httpx.Request) :
  match parse_voice_id voice with
  | Some (speaker_name, style_name) =>
      exists styles style_id,
        dict_get SPEAKERS speaker_name = Some styles
        /\ dict_get styles style_name = Some style_id
        /\ style_id_of speaker_name style_name log = (Ok style_id, log)
  | None => True
  end
  /\ match fst (synthesize text voice speed log) with
     | Raise (KeyError _) => False
     | _ => True
     end.
Proof.
  destruct (parse_voice_id voice) as [[speaker_name style_name]|] eqn:P.
  - destruct (parse_voice_id_registry_id _ _ _ P) as [style_id R]. split.
    + rewrite (style_id_of_registry _ _ _ R). unfold registry_id in R.
      destruct (dict_get SPEAKERS speaker_name) as [styles|]; [|discriminate].
      exists styles, style_id. auto.
    + rewrite (synthesize_run _ _ _ _ _ _ _ P R). cbv zeta.
      destruct (eng log _) as [r1|msg] eqn:E1; unfold failed, failure.
      * destruct (httpx.is_success r1); simpl; [|exact I].
        destruct (httpx.decoded r1) as [doc|msg]; simpl; [|exact I].
        destruct (adjusted speed doc) as [doc'|]; simpl; [|exact I].
        destruct (eng (log ++ _) _) as [r2|msg]; simpl; [|exact I].
        destruct (httpx.is_success r2); exact I.
      * exact I.
  - split; [exact I|].
    rewrite (synthesize_unresolved _ _ _ _ _ _ P). exact I.
Qed.

Lemma dict_set_keys {V : Type} (d : list (str * V)) (k : str) (v : V) :
  map fst (dict_set d k v) =
  match dict_get d k with
  | Some _ => map fst d
  | None => map fst d ++ [k]
  end.
Proof.
  induction d as [|[k' v'] d IH]; simpl; [reflexivity|].
  destruct (PyStr.eqb k' k); simpl; [reflexivity|].
  rewrite IH. destruct (dict_get d k); reflexivity.
Qed.

(** X9.  For a text, a document and a speed that httpx can encode: with
    [speed != 1.0] the JSON body of the synthesis request is an object with
    the keys of the document received, in the same order; [speedScale]
    keeps its place when the engine sent it and comes last when it did not;
    its value is [speed] and every other key keeps its value. *)
Theorem synthesize_speed_scale_keys (text voice : str) (speed : float)
  (speaker_name style_name : str) (style_id : Z)
  (r1 : httpx.Response) (fields : list (str * pyval))
  (log : list httpx.Request) :
  parse_voice_id voice = Some (speaker_name, style_name) ->
  registry_id speaker_name style_name = Some style_id ->
  utf8_encodable text = true ->
  eng log (audio_query_request style_id text) = httpx.Responds r1 ->
  httpx.is_success r1 = true ->
  httpx.decoded r1 = httpx.Decoded (PDict fields) ->
  json_encodable (PDict fields) = true ->
  PrimFloat.eqb speed 1%float = false ->
  PrimFloat.is_finite speed = true ->
  exists fields',
    nth_error (snd (synthesize text voice speed log)) (List.length log + 1)
    = Some (httpx.mkRequest httpx.POST
              (BASE_URL AIVIS_API_ENDPOINT ++ lit "/synthesis")
              [ (lit "speaker", PInt style_id) ]
              (Some (PDict fields')) 60%float)
    /\ map fst fields'
       = match dict_get fields (lit "speedScale") with
         | Some _ => map fst fields
         | None => map fst fields ++ [lit "speedScale"]
         end
    /\ forall k,
         dict_get fields' k
         = if PyStr.eqb k (lit "speedScale") then Some (PFloat speed)
           else dict_get fields k.
Proof.
  intros P R _ E1 S1 D _ N _.
  exists (dict_set fields (lit "speedScale") (PFloat speed)).
  split; [|split; [apply dict_set_keys|]].
  - rewrite (synthesize_run _ _ _ _ _ _ _ P R). cbv zeta.
    rewrite E1. unfold failed at 1. rewrite S1. simpl negb. cbv iota.
    rewrite D. unfold adjusted. rewrite N. simpl negb. cbv iota.
    assert (forall (x : result (list byte)) q1 q2,
              nth_error (snd (x, log ++ [q1; q2])) (List.length log + 1)
              = Some q2) as H.
    { intros x q1 q2. simpl. rewrite nth_error_app2 by lia.
      replace (List.length log + 1 - List.length log)%nat with 1%nat by lia.
      reflexivity. }
    destruct (failed _); [apply H|].
    destruct (eng (log ++ _) _); apply H.
  - intros k. destruct (PyStr.eqb k (lit "speedScale")) eqn:K.
    + apply eqb_eq in K. subst k. apply dict_set_same.
    + apply dict_set_other. apply eqb_neq. exact K.
Qed.

End SynthesisMore.

(** ** The catalog of voices *)

Section CatalogMore.

Variable AIVIS_API_ENDPOINT : option str.
Variable eng : httpx.engine.
Variable format_other : pyval -> str.

Local Abbreviation styles_loop := (styles_loop format_other).
Local Abbreviation speakers_loop := (speakers_loop format_other).
Local Abbreviation get_available_voices_body :=
  (get_available_voices_body AIVIS_API_ENDPOINT eng format_other).
Local Abbreviation get_available_voices :=
  (get_available_voices AIVIS_API_ENDPOINT eng format_other).
Local Abbreviation speakers_request := (speakers_request AIVIS_API_ENDPOINT).

(** [get_available_voices] from the run of its [try] block. *)
Lemma get_available_voices_run (log : list httpx.Request) :
  get_available_voices log =
  (Ok match fst (get_available_voices_body log) with
      | Ok voices => voices
      | Raise _ => []
      end,
   log ++ [speakers_request 10%float]).
Proof.
  pose proof (get_available_voices_body_log AIVIS_API_ENDPOINT eng
                format_other log) as L.
  unfold AivisSpeechTTSProvider.get_available_voices, try_except.
  destruct (get_available_voices_body log) as [[voices|e] log'];
    simpl in L; subst log'; reflexivity.
Qed.

(** The [try] block when the catalog arrives and decodes. *)
Lemma get_available_voices_body_decoded (r : httpx.Response) (body : pyval)
  (log : list httpx.Request) :
  eng log (speakers_request 10%float) = httpx.Responds r ->
  httpx.is_success r = true ->
  httpx.decoded r = httpx.Decoded body ->
  get_available_voices_body log
  = bind (py_iter body) (fun speakers => speakers_loop speakers [])
      (log ++ [speakers_request 10%float]).
Proof.
  intros E S D. rewrite get_available_voices_body_run. cbv zeta.
  rewrite E, S, D. reflexivity.
Qed.

(** X10.  A decoded body that is not a JSON array (an error object, a string,
    [null], a number) gives the empty list. *)
Theorem get_available_voices_not_array (r : httpx.Response) (body : pyval)
  (log : list httpx.Request) :
  eng log (speakers_request 10%float) = httpx.Responds r ->
  httpx.is_success r = true ->
  httpx.decoded r = httpx.Decoded body ->
  is_list body = false ->
  get_available_voices log = (Ok [], log ++ [speakers_request 10%float]).
Proof.
  intros E S D L. rewrite get_available_voices_run.
  rewrite (get_available_voices_body_decoded r body log E S D).
  destruct body as [| | | |s|l|d]; try reflexivity; [| discriminate L |].
  - destruct s; reflexivity.
  - destruct d; reflexivity.
Qed.

Lemma styles_loop_malformed (speaker style : pyval) (styles : list pyval) :
  In style styles ->
  style_fields style = None ->
  forall (voices : list pyval) (log : list httpx.Request),
  exists e, fst (styles_loop speaker styles voices log) = Raise e.
Proof.
  intros HI SF. induction styles as [|head rest IH]; [destruct HI|].
  intros voices log. cbn [AivisSpeechTTSProvider.styles_loop].
  unfold bind, py_getitem.
  destruct speaker; try (eexists; reflexivity).
  destruct (dict_get d (lit "name")); [|eexists; reflexivity].
  unfold ret. destruct head; try (eexists; reflexivity).
  destruct (dict_get d0 (lit "name")) eqn:E1; [|eexists; reflexivity].
  destruct (dict_get d0 (lit "id")) eqn:E2; [|eexists; reflexivity].
  destruct HI as [<-|HI].
  - simpl in SF. rewrite E1, E2 in SF. discriminate SF.
  - apply (IH HI).
Qed.

Lemma speakers_loop_malformed (speaker : pyval) (speakers : list pyval) :
  In speaker speakers ->
  malformed_speaker speaker ->
  forall (voices : list pyval) (log : list httpx.Request),
  exists e, fst (speakers_loop speakers voices log) = Raise e.
Proof.
  intros HI MS. induction speakers as [|head rest IH]; [destruct HI|].
  intros voices log. cbn [AivisSpeechTTSProvider.speakers_loop].
  unfold bind at 1.
  destruct (py_get head (lit "styles") (PList []) log) as [[sv|e] log1] eqn:G;
    [|eexists; reflexivity].
  unfold bind at 1.
  destruct (py_iter sv log1) as [[styles|e] log2] eqn:I;
    [|eexists; reflexivity].
  unfold bind at 1.
  destruct (styles_loop head styles voices log2) as [[voices'|e] log3] eqn:L;
    [|eexists; reflexivity].
  destruct HI as [<-|HI]; [|apply (IH HI)].
  exfalso. destruct MS as [ND|(d & sts & style & -> & GS & HS & SF)].
  - destruct head; try discriminate G. discriminate ND.
  - unfold py_get in G. rewrite GS in G. unfold ret in G.
    injection G as <- <-. unfold py_iter, ret in I. injection I as <- <-.
    destruct (styles_loop_malformed (PDict d) style sts HS SF voices log)
      as [e Hr].
    rewrite L in Hr. discriminate Hr.
Qed.

(** X11.  One malformed entry anywhere in the catalog empties the whole list: the
    records built before it are not returned. *)
Theorem get_available_voices_malformed_entry (r : httpx.Response)
  (speakers : list pyval) (speaker : pyval) (log : list httpx.Request) :
  eng log (speakers_request 10%float) = httpx.Responds r ->
  httpx.is_success r = true ->
  httpx.decoded r = httpx.Decoded (PList speakers) ->
  In speaker speakers ->
  malformed_speaker speaker ->
  get_available_voices log = (Ok [], log ++ [speakers_request 10%float]).
Proof.
  intros E S D HI MS. rewrite get_available_voices_run.
  rewrite (get_available_voices_body_decoded r _ log E S D).
  unfold bind, py_iter, ret.
  destruct (speakers_loop_malformed speaker speakers HI MS []
              (log ++ [speakers_request 10%float])) as [e ->].
  reflexivity.
Qed.

Lemma get_available_voices_catalog (r : httpx.Response) (body : pyval)
  (catalog : list (pyval * list (pyval * pyval)))
  (log : list httpx.Request) :
  eng log (speakers_request 10%float) = httpx.Responds r ->
  httpx.is_success r = true ->
  httpx.decoded r = httpx.Decoded body ->
  catalog_of body = Some catalog ->
  get_available_voices log
  = (Ok (flatten_catalog format_other catalog),
     log ++ [speakers_request 10%float]).
Proof.
  intros E S D C. rewrite get_available_voices_run.
  rewrite (get_available_voices_body_decoded r body log E S D).
  destruct body; try discriminate C. simpl in C.
  unfold bind, py_iter, ret.
  rewrite (speakers_loop_catalog format_other _ _ _ _ C). reflexivity.
Qed.

(** X12.  The listing and the resolver agree: when the names of the catalog are
    names that the registry declares, the [id] of every listed voice resolves
    through [parse_voice_id] to the [speaker] and [name] of its record. *)
Theorem get_available_voices_ids_resolve (r : httpx.Response) (body : pyval)
  (catalog : list (pyval * list (pyval * pyval)))
  (log : list httpx.Request) :
  eng log (speakers_request 10%float) = httpx.Responds r ->
  httpx.is_success r = true ->
  httpx.decoded r = httpx.Decoded body ->
  catalog_of body = Some catalog ->
  declared_catalog catalog ->
  exists voices,
    fst (get_available_voices log) = Ok voices
    /\ Forall resolvable_voice voices.
Proof.
  intros E S D C DC.
  rewrite (get_available_voices_catalog r body catalog log E S D C).
  eexists. split; [reflexivity|].
  unfold flatten_catalog.
  apply Forall_flat_map. unfold declared_catalog in DC.
  eapply Forall_impl; [|exact DC].
  intros [sname styles] (speaker_name & HN & HS). simpl in HN, HS. subst sname.
  simpl. apply Forall_map. eapply Forall_impl; [|exact HS].
  intros [stname sid] (style_name & HE & HD). simpl in HE. subst stname.
  simpl. unfold voice_record, resolvable_voice.
  eexists _, _, speaker_name, style_name.
  split; [reflexivity|]. split; [reflexivity|]. split; [reflexivity|].
  split; [reflexivity|].
  change (fmt format_other (PStr speaker_name) ++ lit "_"
          ++ fmt format_other (PStr style_name))
    with (compound speaker_name style_name).
  rewrite <- (app_nil_r (compound speaker_name style_name)).
  apply parse_voice_id_declared_suffix. exact HD.
Qed.

(** X13.  [health_check] never raises and sends one probe; it answers [True] for
    the status 200 only: any other status, also another 2xx, and any
    transport failure give [False]. *)
Theorem health_check_probe (log : list httpx.Request) :
  AivisSpeechTTSProvider.health_check AIVIS_API_ENDPOINT eng log
  = (Ok match eng log (speakers_request 5%float) with
        | httpx.Responds r => httpx.status_code r =? 200
        | httpx.Fails _ => false
        end,
     log ++ [speakers_request 5%float]).
Proof.
  unfold AivisSpeechTTSProvider.health_check, try_except, bind, send, ret.
  destruct (eng log _); reflexivity.
Qed.

End CatalogMore.

(** ** The routes *)

Section RoutesMore.

Variable AIVIS_API_ENDPOINT : option str.
Variable eng : httpx.engine.
Variable format_other : pyval -> str.

Local Abbreviation audio_query_request :=
  (audio_query_request AIVIS_API_ENDPOINT).
Local Abbreviation synthesis_request :=
  (synthesis_request AIVIS_API_ENDPOINT).
Local Abbreviation synthesize := (synthesize AIVIS_API_ENDPOINT eng).
Local Abbreviation create_speech :=
  (aivis_tts.create_speech AIVIS_API_ENDPOINT eng).

Lemma latin1_error_encodable (s : str) :
  latin1_encodable s = true -> forall pos, latin1_error s pos = None.
Proof.
  induction s as [|c s IH]; intros H pos; [reflexivity|].
  simpl in H. apply andb_true_iff in H. destruct H as [Hc Hs].
  simpl. apply N.leb_le in Hc.
  destruct (255 <? c)%N eqn:L; [apply N.ltb_lt in L; lia|].
  apply IH. exact Hs.
Qed.

Lemma latin1_error_unencodable (s : str) :
  latin1_encodable s = false ->
  forall pos, exists start stop c, latin1_error s pos = Some (start, stop, c).
Proof.
  induction s as [|c s IH]; intros H pos; [discriminate|].
  simpl in H. simpl. destruct (255 <? c)%N eqn:L.
  - eexists _, _, _. reflexivity.
  - apply N.ltb_ge, N.leb_le in L. rewrite L in H. simpl in H.
    apply IH. exact H.
Qed.

(** [init_headers] sends nothing; it raises for the first name or value that
    latin-1 cannot encode. *)
Lemma init_headers_run (headers : list (str * str))
  (log : list httpx.Request) :
  aivis_tts.init_headers headers log =
  match header_error headers with
  | Some msg => (Raise (UnicodeEncodeError msg), log)
  | None => (Ok tt, log)
  end.
Proof.
  induction headers as [|[k v] rest IH]; [reflexivity|].
  cbn [aivis_tts.init_headers header_error].
  unfold bind at 1, aivis_tts.encode_latin1 at 1.
  destruct (latin1_error (lower k) 0) as [[[a b] c]|]; [reflexivity|].
  unfold ret at 1. unfold bind at 1, aivis_tts.encode_latin1 at 1.
  destruct (latin1_error v 0) as [[[a b] c]|]; [reflexivity|].
  unfold ret at 1. exact IH.
Qed.

(** The headers of the response can be encoded exactly when the voice
    can. *)
Lemma header_error_voice (voice : str) :
  latin1_encodable voice = true -> header_error (speech_headers voice) = None.
Proof.
  intros H. unfold speech_headers. cbn [header_error].
  rewrite (latin1_error_encodable (lower (lit "Content-Disposition")))
    by reflexivity.
  rewrite (latin1_error_encodable
             (lit "attachment; filename=" ++ aivis_tts.dquote
              ++ lit "speech_" ++ voice ++ lit ".wav" ++ aivis_tts.dquote)).
  2:{ unfold latin1_encodable in *. rewrite !forallb_app.
      repeat (apply andb_true_iff; split); first [exact H | reflexivity]. }
  rewrite (latin1_error_encodable (lower (lit "X-Model-Used")))
    by reflexivity.
  rewrite (latin1_error_encodable (lit "aivis-speech")) by reflexivity.
  rewrite (latin1_error_encodable (lower (lit "X-Voice-Used")))
    by reflexivity.
  rewrite (latin1_error_encodable voice H). reflexivity.
Qed.

Lemma latin1_error_app (a b : str) :
  latin1_encodable a = true ->
  forall pos,
  latin1_error (a ++ b) pos = latin1_error b (pos + N.of_nat (List.length a)).
Proof.
  induction a as [|c a IH]; intros H pos.
  - simpl. rewrite N.add_0_r. reflexivity.
  - simpl in H. apply andb_true_iff in H. destruct H as [Hc Ha].
    apply N.leb_le in Hc. cbn [app latin1_error].
    destruct (255 <? c)%N eqn:L; [apply N.ltb_lt in L; lia|].
    rewrite (IH Ha). f_equal. cbn [List.length]. lia.
Qed.

Lemma latin1_error_app_bad (a b : str) :
  latin1_encodable a = false ->
  forall pos, exists start stop c,
    latin1_error (a ++ b) pos = Some (start, stop, c).
Proof.
  induction a as [|c a IH]; intros H pos; [discriminate|].
  simpl in H. cbn [app latin1_error]. destruct (255 <? c)%N eqn:L.
  - eexists _, _, _. reflexivity.
  - apply N.ltb_ge, N.leb_le in L. rewrite L in H. simpl in H.
    apply IH. exact H.
Qed.

Lemma header_error_voice_bad (voice : str) :
  latin1_encodable voice = false ->
  exists msg, header_error (speech_headers voice) = Some msg.
Proof.
  intros H. unfold speech_headers. cbn [header_error].
  rewrite (latin1_error_encodable (lower (lit "Content-Disposition")))
    by reflexivity.
  change (lit "attachment; filename=" ++ aivis_tts.dquote ++ lit "speech_"
          ++ voice ++ lit ".wav" ++ aivis_tts.dquote)
    with ((lit "attachment; filename=" ++ aivis_tts.dquote ++ lit "speech_")
          ++ voice ++ lit ".wav" ++ aivis_tts.dquote).
  rewrite latin1_error_app by reflexivity.
  destruct (latin1_error_app_bad voice (lit ".wav" ++ aivis_tts.dquote) H
              (0 + N.of_nat
                     (List.length
                        (lit "attachment; filename=" ++ aivis_tts.dquote
                         ++ lit "speech_"))))
    as (a & b & c & ->).
  eexists. reflexivity.
Qed.

(** [create_speech] from the run of [synthesize]. *)
Lemma create_speech_run (request : aivis_tts.SpeechRequest)
  (log : list httpx.Request) :
  create_speech request log =
  if forallb isspace (aivis_tts.input request)
     || (len (aivis_tts.input request) >? 5000)
  then (Raise (HTTPException 500 (lit "Failed to generate speech")), log)
  else
    match synthesize (aivis_tts.input request) (aivis_tts.voice request)
            (aivis_tts.speed request) log with
    | (Ok audio_data, log') =>
        match header_error (speech_headers (aivis_tts.voice request)) with
        | Some msg => (Raise (HTTPException 400 msg), log')
        | None =>
            (Ok (speech_response (aivis_tts.voice request) audio_data), log')
        end
    | (Raise (ValueError msg), log') | (Raise (JSONDecodeError msg), log')
    | (Raise (UnicodeEncodeError msg), log') =>
        (Raise (HTTPException 400 msg), log')
    | (Raise _, log') =>
        (Raise (HTTPException 500 (lit "Failed to generate speech")), log')
    end.
Proof.
  unfold aivis_tts.create_speech, try_except, bind at 1.
  rewrite blank_test.
  destruct (forallb isspace (aivis_tts.input request)); [reflexivity|].
  unfold ret at 1. unfold bind at 1. simpl orb.
  destruct (len (aivis_tts.input request) >? 5000); [reflexivity|].
  unfold ret at 1. unfold bind at 1.
  destruct (synthesize _ _ _ log) as [[audio_data|e] log'];
    [|destruct e; reflexivity].
  unfold aivis_tts.Response_init, bind.
  fold (speech_headers (aivis_tts.voice request)).
  rewrite init_headers_run.
  destruct (header_error _); reflexivity.
Qed.

(** X14.  A valid input with a voice that resolves and that latin-1 can
    encode, when both calls succeed: the response carries the bytes of the
    synthesis response, the media type [audio/wav], and headers that name
    the voice as the request gave it. *)
Theorem create_speech_returns_audio (request : aivis_tts.SpeechRequest)
  (speaker_name style_name : str) (style_id : Z)
  (r1 r2 : httpx.Response) (doc doc' : pyval) (log : list httpx.Request) :
  forallb isspace (aivis_tts.input request) = false ->
  len (aivis_tts.input request) <= 5000 ->
  utf8_encodable (aivis_tts.input request) = true ->
  latin1_encodable (aivis_tts.voice request) = true ->
  parse_voice_id (aivis_tts.voice request) = Some (speaker_name, style_name) ->
  registry_id speaker_name style_name = Some style_id ->
  eng log (audio_query_request style_id (aivis_tts.input request))
    = httpx.Responds r1 ->
  httpx.is_success r1 = true ->
  httpx.decoded r1 = httpx.Decoded doc ->
  adjusted (aivis_tts.speed request) doc = Some doc' ->
  json_encodable doc' = true ->
  eng (log ++ [audio_query_request style_id (aivis_tts.input request)])
    (synthesis_request style_id doc') = httpx.Responds r2 ->
  httpx.is_success r2 = true ->
  create_speech request log
  = (Ok (aivis_tts.mkResponse (httpx.content r2) (lit "audio/wav")
           [ (lit "Content-Disposition",
              lit "attachment; filename=" ++ aivis_tts.dquote
              ++ lit "speech_" ++ aivis_tts.voice request ++ lit ".wav"
              ++ aivis_tts.dquote);
             (lit "X-Model-Used", lit "aivis-speech");
             (lit "X-Voice-Used", aivis_tts.voice request) ]),
     log ++ [audio_query_request style_id (aivis_tts.input request);
             synthesis_request style_id doc']).
Proof.
  intros B L _ V P R E1 S1 D A _ E2 S2. rewrite create_speech_run, B.
  simpl orb.
  replace (len (aivis_tts.input request) >? 5000) with false
    by (symmetry; rewrite Z.gtb_ltb; apply Z.ltb_ge; exact L).
  rewrite (synthesize_run _ _ _ _ _ _ _ _ _ P R). cbv zeta.
  rewrite E1. unfold failed. rewrite S1. simpl negb. cbv iota.
  rewrite D, A, E2, S2. cbv iota.
  rewrite (header_error_voice _ V). reflexivity.
Qed.

(** X20.  A valid input with a voice that resolves but holds a code point
    above 255 (a suffix in Japanese, say), when both calls succeed: the
    headers of the response cannot be encoded as latin-1, the error is a
    [ValueError], and the handler answers with status 400 after the two
    engine requests; the audio is not returned. *)
Theorem create_speech_voice_not_latin1 (request : aivis_tts.SpeechRequest)
  (speaker_name style_name : str) (style_id : Z)
  (r1 r2 : httpx.Response) (doc doc' : pyval) (log : list httpx.Request) :
  forallb isspace (aivis_tts.input request) = false ->
  len (aivis_tts.input request) <= 5000 ->
  utf8_encodable (aivis_tts.input request) = true ->
  latin1_encodable (aivis_tts.voice request) = false ->
  parse_voice_id (aivis_tts.voice request) = Some (speaker_name, style_name) ->
  registry_id speaker_name style_name = Some style_id ->
  eng log (audio_query_request style_id (aivis_tts.input request))
    = httpx.Responds r1 ->
  httpx.is_success r1 = true ->
  httpx.decoded r1 = httpx.Decoded doc ->
  adjusted (aivis_tts.speed request) doc = Some doc' ->
  json_encodable doc' = true ->
  eng (log ++ [audio_query_request style_id (aivis_tts.input request)])
    (synthesis_request style_id doc') = httpx.Responds r2 ->
  httpx.is_success r2 = true ->
  exists detail,
    create_speech request log
    = (Raise (HTTPException 400 detail),
       log ++ [audio_query_request style_id (aivis_tts.input request);
               synthesis_request style_id doc']).
Proof.
  intros B L _ V P R E1 S1 D A _ E2 S2.
  destruct (header_error_voice_bad _ V) as [msg HE]. exists msg.
  rewrite create_speech_run, B. simpl orb.
  replace (len (aivis_tts.input request) >? 5000) with false
    by (symmetry; rewrite Z.gtb_ltb; apply Z.ltb_ge; exact L).
  rewrite (synthesize_run _ _ _ _ _ _ _ _ _ P R). cbv zeta.
  rewrite E1. unfold failed. rewrite S1. simpl negb. cbv iota.
  rewrite D, A, E2, S2. cbv iota. rewrite HE. reflexivity.
Qed.

(** X15.  A valid input with a voice that does not resolve: status 400, with the
    message of the [ValueError] as detail, and no request to the engine. *)
Theorem create_speech_unknown_voice (request : aivis_tts.SpeechRequest)
  (log : list httpx.Request) :
  forallb isspace (aivis_tts.input request) = false ->
  len (aivis_tts.input request) <= 5000 ->
  parse_voice_id (aivis_tts.voice request) = None ->
  create_speech request log
  = (Raise (HTTPException 400
              (invalid_voice_message (aivis_tts.voice request))), log).
Proof.
  intros B L P. rewrite create_speech_run, B. simpl orb.
  replace (len (aivis_tts.input request) >? 5000) with false
    by (symmetry; rewrite Z.gtb_ltb; apply Z.ltb_ge; exact L).
  rewrite (synthesize_unresolved _ _ _ _ _ _ P). reflexivity.
Qed.

(** X16.  A valid input with a voice that resolves, when a call to the engine
    fails: status 500 with a fixed detail, after the audio query alone when
    that call failed, after both requests when the synthesis call failed. *)
Theorem create_speech_engine_failure (request : aivis_tts.SpeechRequest)
  (speaker_name style_name : str) (style_id : Z)
  (log : list httpx.Request) :
  forallb isspace (aivis_tts.input request) = false ->
  len (aivis_tts.input request) <= 5000 ->
  parse_voice_id (aivis_tts.voice request) = Some (speaker_name, style_name) ->
  registry_id speaker_name style_name = Some style_id ->
  (failed (eng log (audio_query_request style_id (aivis_tts.input request)))
   = true ->
   create_speech request log
   = (Raise (HTTPException 500 (lit "Failed to generate speech")),
      log ++ [audio_query_request style_id (aivis_tts.input request)]))
  /\ (forall r1 doc doc',
        eng log (audio_query_request style_id (aivis_tts.input request))
          = httpx.Responds r1 ->
        httpx.is_success r1 = true ->
        httpx.decoded r1 = httpx.Decoded doc ->
        adjusted (aivis_tts.speed request) doc = Some doc' ->
        failed
          (eng (log ++ [audio_query_request style_id
                          (aivis_tts.input request)])
             (synthesis_request style_id doc')) = true ->
        create_speech request log
        = (Raise (HTTPException 500 (lit "Failed to generate speech")),
           log ++ [audio_query_request style_id (aivis_tts.input request);
                   synthesis_request style_id doc'])).
Proof.
  intros B L P R. rewrite create_speech_run, B. simpl orb.
  replace (len (aivis_tts.input request) >? 5000) with false
    by (symmetry; rewrite Z.gtb_ltb; apply Z.ltb_ge; exact L).
  rewrite (synthesize_run _ _ _ _ _ _ _ _ _ P R). cbv zeta. split.
  - intros F. rewrite F.
    destruct (eng log _) as [r|msg]; reflexivity.
  - intros r1 doc doc' E1 S1 D A F.
    rewrite E1. unfold failed at 1. rewrite S1. simpl negb. cbv iota.
    rewrite D, A, F.
    destruct (eng (log ++ _) _) as [r|msg]; reflexivity.
Qed.

(** X17.  A valid input with a voice that resolves, when the engine answers the
    audio query with a success status and a body that is not JSON: the
    decoder's error is a [ValueError], so the handler answers with status
    400 and the decoder's message, not with status 500. *)
Theorem create_speech_undecodable_document
  (request : aivis_tts.SpeechRequest)
  (speaker_name style_name : str) (style_id : Z)
  (r1 : httpx.Response) (msg : str) (log : list httpx.Request) :
  forallb isspace (aivis_tts.input request) = false ->
  len (aivis_tts.input request) <= 5000 ->
  parse_voice_id (aivis_tts.voice request) = Some (speaker_name, style_name) ->
  registry_id speaker_name style_name = Some style_id ->
  eng log (audio_query_request style_id (aivis_tts.input request))
    = httpx.Responds r1 ->
  httpx.is_success r1 = true ->
  httpx.decoded r1 = httpx.Undecodable msg ->
  create_speech request log
  = (Raise (HTTPException 400 msg),
     log ++ [audio_query_request style_id (aivis_tts.input request)]).
Proof.
  intros B L P R E1 S1 D. rewrite create_speech_run, B. simpl orb.
  replace (len (aivis_tts.input request) >? 5000) with false
    by (symmetry; rewrite Z.gtb_ltb; apply Z.ltb_ge; exact L).
  rewrite (synthesize_run _ _ _ _ _ _ _ _ _ P R). cbv zeta.
  rewrite E1. unfold failed. rewrite S1. simpl negb. cbv iota.
  rewrite D. reflexivity.
Qed.

(** X18.  Whatever the request and the engine, [create_speech] returns a response
    or raises an [HTTPException] with status 400, or with status 500 and the
    fixed detail; no other exception leaves the handler. *)
Theorem create_speech_errors (request : aivis_tts.SpeechRequest)
  (log : list httpx.Request) :
  match fst (create_speech request log) with
  | Ok _ => True
  | Raise (HTTPException status_code detail) =>
      status_code = 400
      \/ (status_code = 500 /\ detail = lit "Failed to generate speech")
  | Raise _ => False
  end.
Proof.
  rewrite create_speech_run.
  destruct (_ || _); [simpl; auto|].
  destruct (synthesize _ _ _ log) as [[audio_data|e] log'];
    [destruct (header_error _); simpl; auto | destruct e; simpl; auto].
Qed.

(** X19.  [list_voices] always answers: its handler for status 500 is never
    reached, because [get_available_voices] returns a list in every case. *)
Theorem list_voices_always_answers (log : list httpx.Request) :
  exists voices,
    get_available_voices AIVIS_API_ENDPOINT eng format_other log
    = (Ok voices, log ++ [speakers_request AIVIS_API_ENDPOINT 10%float])
    /\ aivis_tts.list_voices AIVIS_API_ENDPOINT eng format_other log
       = (Ok (PDict [ (lit "object", PStr (lit "list"));
                      (lit "data", PList voices) ]),
          log ++ [speakers_request AIVIS_API_ENDPOINT 10%float]).
Proof.
  eexists. split; [apply get_available_voices_run|].
  unfold aivis_tts.list_voices, try_except, bind.
  rewrite get_available_voices_run. reflexivity.
Qed.

End RoutesMore.

(** ** Concrete runs of the further properties *)

Section RunsMore.

Lemma parse_voice_id_extension_witness :
  parse_voice_id (lit "mao_karakai" ++ lit "_ja-JP")
  = Some (lit "mao", lit "karakai").
Proof.
  apply (parse_voice_id_extension (lit "mao_karakai") (lit "_ja-JP")).
  reflexivity.
Defined.

Lemma registry_id_injective_witness :
  registry_id (lit "kohaku") (lit "amama") = Some 1878365377
  /\ lit "kohaku" = lit "kohaku" /\ lit "amama" = lit "amama".
Proof.
  split; [reflexivity|].
  apply (registry_id_injective (lit "kohaku") (lit "amama")
           (lit "kohaku") (lit "amama") 1878365377); reflexivity.
Defined.

Lemma synthesize_returns_content_witness :
  synthesize None engine_ok (lit "hello") (lit "kohaku_normal") 1%float []
  = (Ok wav,
     [audio_query_request None 1878365376 (lit "hello");
      synthesis_request None 1878365376 sample_query]).
Proof.
  apply (synthesize_returns_content None engine_ok (lit "hello")
           (lit "kohaku_normal") 1%float (lit "kohaku") (lit "normal")
           1878365376
           (httpx.mkResponse 200 wav (httpx.Decoded sample_query))
           (httpx.mkResponse 200 wav (httpx.Decoded sample_query))
           sample_query sample_query []); reflexivity.
Defined.

Lemma synthesize_second_call_fails_witness :
  synthesize None engine_once (lit "hello") (lit "kohaku_normal") 1%float []
  = (Raise (HTTPStatusError 503),
     [audio_query_request None 1878365376 (lit "hello");
      synthesis_request None 1878365376 sample_query])
  /\ isinstance_HTTPError (HTTPStatusError 503) = true.
Proof.
  apply (synthesize_second_call_fails None engine_once (lit "hello")
           (lit "kohaku_normal") 1%float (lit "kohaku") (lit "normal")
           1878365376
           (httpx.mkResponse 200 [] (httpx.Decoded sample_query))
           sample_query sample_query []); reflexivity.
Defined.

Lemma synthesize_document_not_object_witness :
  synthesize None engine_array (lit "hello") (lit "mao_normal") 1.5%float []
  = (Raise TypeError, [audio_query_request None 888753760 (lit "hello")]).
Proof.
  apply (synthesize_document_not_object None engine_array (lit "hello")
           (lit "mao_normal") 1.5%float (lit "mao") (lit "normal") 888753760
           (httpx.mkResponse 200 [] (httpx.Decoded (PList [])))
           (PList []) []); reflexivity.
Defined.

Lemma synthesize_undecodable_document_witness :
  synthesize None engine_not_json (lit "hello") (lit "mao_normal") 1%float []
  = (Raise (JSONDecodeError (lit "Expecting value")),
     [audio_query_request None 888753760 (lit "hello")]).
Proof.
  apply (synthesize_undecodable_document None engine_not_json (lit "hello")
           (lit "mao_normal") 1%float (lit "mao") (lit "normal") 888753760
           (httpx.mkResponse 200 []
              (httpx.Undecodable (lit "Expecting value")))
           (lit "Expecting value") []); reflexivity.
Defined.

Lemma synthesize_speed_scale_keys_witness :
  exists fields',
    nth_error
      (snd (synthesize None engine_ok (lit "hello") (lit "mao_normal")
              0.5%float [])) 1
    = Some (httpx.mkRequest httpx.POST
              (lit "http://127.0.0.1:10101/synthesis")
              [ (lit "speaker", PInt 888753760) ]
              (Some (PDict fields')) 60%float)
    /\ map fst fields'
       = [lit "accent_phrases"; lit "speedScale"; lit "pitchScale"]
    /\ forall k,
         dict_get fields' k
         = if PyStr.eqb k (lit "speedScale") then Some (PFloat 0.5%float)
           else dict_get [ (lit "accent_phrases", PList []);
                           (lit "speedScale", PFloat 1%float);
                           (lit "pitchScale", PFloat 0%float) ] k.
Proof.
  apply (synthesize_speed_scale_keys None engine_ok (lit "hello")
           (lit "mao_normal") 0.5%float (lit "mao") (lit "normal") 888753760
           (httpx.mkResponse 200 wav (httpx.Decoded sample_query))
           [ (lit "accent_phrases", PList []);
             (lit "speedScale", PFloat 1%float);
             (lit "pitchScale", PFloat 0%float) ] []); reflexivity.
Defined.

Lemma get_available_voices_not_array_witness :
  get_available_voices None engine_object (fun _ => []) []
  = (Ok [], [speakers_request None 10%float]).
Proof.
  apply (get_available_voices_not_array None engine_object (fun _ => [])
           (httpx.mkResponse 200 []
              (httpx.Decoded (PDict [ (lit "detail", PStr (lit "busy")) ])))
           (PDict [ (lit "detail", PStr (lit "busy")) ]) []); reflexivity.
Defined.

Lemma get_available_voices_malformed_entry_witness :
  get_available_voices None engine_broken (fun _ => []) []
  = (Ok [], [speakers_request None 10%float]).
Proof.
  refine (get_available_voices_malformed_entry None engine_broken
            (fun _ => [])
            (httpx.mkResponse 200 [] (httpx.Decoded broken_catalog))
            _ _ [] eq_refl eq_refl eq_refl (or_introl eq_refl) _).
  right. eexists _, _, (PDict [ (lit "name", PStr (lit "amama")) ]).
  split; [reflexivity|]. split; [reflexivity|].
  split; [right; left; reflexivity | reflexivity].
Defined.

Lemma get_available_voices_ids_resolve_witness :
  exists voices,
    fst (get_available_voices None engine_kohaku (fun _ => []) [])
    = Ok voices
    /\ Forall resolvable_voice voices.
Proof.
  refine (get_available_voices_ids_resolve None engine_kohaku (fun _ => [])
            (httpx.mkResponse 200 [] (httpx.Decoded kohaku_catalog))
            kohaku_catalog
            [ (PStr (lit "kohaku"),
               [ (PStr (lit "normal"), PInt 1878365376) ]) ]
            [] eq_refl eq_refl eq_refl eq_refl _).
  constructor; [|constructor].
  exists (lit "kohaku"). split; [reflexivity|].
  constructor; [|constructor].
  exists (lit "normal"). split; [reflexivity|].
  simpl. right; right; right; right; right; right; left. reflexivity.
Defined.

Lemma create_speech_returns_audio_witness :
  aivis_tts.create_speech None engine_ok
    (aivis_tts.mkSpeechRequest (lit "hello") (lit "aivis-speech")
       (lit "kohaku_normal_ja") 1%float) []
  = (Ok (aivis_tts.mkResponse wav (lit "audio/wav")
           [ (lit "Content-Disposition",
              lit "attachment; filename=" ++ aivis_tts.dquote
              ++ lit "speech_" ++ lit "kohaku_normal_ja" ++ lit ".wav"
              ++ aivis_tts.dquote);
             (lit "X-Model-Used", lit "aivis-speech");
             (lit "X-Voice-Used", lit "kohaku_normal_ja") ]),
     [audio_query_request None 1878365376 (lit "hello");
      synthesis_request None 1878365376 sample_query]).
Proof.
  apply (create_speech_returns_audio None engine_ok
           (aivis_tts.mkSpeechRequest (lit "hello") (lit "aivis-speech")
              (lit "kohaku_normal_ja") 1%float)
           (lit "kohaku") (lit "normal") 1878365376
           (httpx.mkResponse 200 wav (httpx.Decoded sample_query))
           (httpx.mkResponse 200 wav (httpx.Decoded sample_query))
           sample_query sample_query []);
    first [reflexivity | vm_compute; discriminate].
Defined.

Lemma create_speech_voice_not_latin1_witness :
  exists detail,
    aivis_tts.create_speech None engine_ok
      (aivis_tts.mkSpeechRequest (lit "hello") (lit "aivis-speech")
         (lit "kohaku_normal" ++ [12354%N]) 1%float) []
    = (Raise (HTTPException 400 detail),
       [audio_query_request None 1878365376 (lit "hello");
        synthesis_request None 1878365376 sample_query]).
Proof.
  apply (create_speech_voice_not_latin1 None engine_ok
           (aivis_tts.mkSpeechRequest (lit "hello") (lit "aivis-speech")
              (lit "kohaku_normal" ++ [12354%N]) 1%float)
           (lit "kohaku") (lit "normal") 1878365376
           (httpx.mkResponse 200 wav (httpx.Decoded sample_query))
           (httpx.mkResponse 200 wav (httpx.Decoded sample_query))
           sample_query sample_query []);
    first [reflexivity | vm_compute; discriminate].
Defined.

(** The detail of that answer for the voice [kohaku_normal] followed by
    U+3042, and the request with no body that follows a [null] document. *)
Example create_speech_edge_runs :
  fst (aivis_tts.create_speech None engine_ok
         (aivis_tts.mkSpeechRequest (lit "hello") (lit "aivis-speech")
            (lit "kohaku_normal" ++ [12354%N]) 1%float) [])
  = Raise (HTTPException 400
             (lit "'latin-1' codec can't encode character '\u3042' in position 42: ordinal not in range(256)"))
  /\ snd (synthesize None engine_null (lit "hello") (lit "kohaku_normal")
            1%float [])
     = [ audio_query_request None 1878365376 (lit "hello");
         httpx.mkRequest httpx.POST (lit "http://127.0.0.1:10101/synthesis")
           [ (lit "speaker", PInt 1878365376) ] None 60%float ].
Proof. split; vm_compute; reflexivity. Qed.

Lemma create_speech_unknown_voice_witness :
  aivis_tts.create_speech None engine_ok
    (aivis_tts.mkSpeechRequest (lit "hello") (lit "aivis-speech")
       (lit "alloy") 1%float) []
  = (Raise (HTTPException 400 (invalid_voice_message (lit "alloy"))), []).
Proof.
  apply (create_speech_unknown_voice None engine_ok
           (aivis_tts.mkSpeechRequest (lit "hello") (lit "aivis-speech")
              (lit "alloy") 1%float) []);
    first [reflexivity | vm_compute; discriminate].
Defined.

Lemma create_speech_engine_failure_witness :
  aivis_tts.create_speech None engine_down
    (aivis_tts.mkSpeechRequest (lit "hello") (lit "aivis-speech")
       (lit "kohaku_normal") 1%float) []
  = (Raise (HTTPException 500 (lit "Failed to generate speech")),
     [audio_query_request None 1878365376 (lit "hello")]).
Proof.
  refine (proj1 (create_speech_engine_failure None engine_down
                   (aivis_tts.mkSpeechRequest (lit "hello")
                      (lit "aivis-speech") (lit "kohaku_normal") 1%float)
                   (lit "kohaku") (lit "normal") 1878365376 []
                   eq_refl _ eq_refl eq_refl) eq_refl).
  vm_compute; discriminate.
Defined.

Lemma create_speech_undecodable_document_witness :
  aivis_tts.create_speech None engine_not_json
    (aivis_tts.mkSpeechRequest (lit "hello") (lit "aivis-speech")
       (lit "kohaku_normal") 1%float) []
  = (Raise (HTTPException 400 (lit "Expecting value")),
     [audio_query_request None 1878365376 (lit "hello")]).
Proof.
  apply (create_speech_undecodable_document None engine_not_json
           (aivis_tts.mkSpeechRequest (lit "hello") (lit "aivis-speech")
              (lit "kohaku_normal") 1%float)
           (lit "kohaku") (lit "normal") 1878365376
           (httpx.mkResponse 200 []
              (httpx.Undecodable (lit "Expecting value")))
           (lit "Expecting value") []);
    first [reflexivity | vm_compute; discriminate].
Defined.

End RunsMore.
